(** * Nexus Mods downloader (nexus_api_downloaderV1.2.py)

    A shallow embedding of the script's five parts, in the order of the
    source: [load_api_key], [normalize_game_domain],
    [get_nexus_download_url], [download_file], [parse_wabbajack_json] and
    the [__main__] block, followed by the properties of the specification.

    Conventions of the embedding.
    - A Python [str] is a [string]; [str.lower] and [str.strip] act on the
      ASCII letters and the ASCII white space and leave every other
      character alone.
    - A value produced by [json.load] / [response.json()] is a [json]; a
      JSON object is a finite map from keys to values (a Python dict).
    - A Python exception is an [exn]; a call that may raise returns a
      [result]; code that also touches the file system threads a [disk].
    - What the outside world does (HTTP replies, failing system calls, the
      lines typed on standard input) is an explicit argument. *)

From Stdlib Require Import ZArith Ascii String List Lia Bool.
From Stdlib Require Import Floats.SpecFloat.
From stdpp Require Import base option list strings gmap.

Local Open Scope string_scope.
Local Open Scope Z_scope.
Set Warnings "-register-all".

(** ** Python strings *)

Module Py.

(** [c.lower()] on one ASCII character. *)
Definition lower_ascii (c : ascii) : ascii :=
  let n := nat_of_ascii c in
  if ((65 <=? n)%nat && (n <=? 90)%nat)%bool then ascii_of_nat (n + 32) else c.

(** [s.lower()] *)
Fixpoint lower (s : string) : string :=
  match s with
  | EmptyString => EmptyString
  | String c t => String (lower_ascii c) (lower t)
  end.

(** [str.isspace] on one ASCII character: tab, line feed, vertical tab,
    form feed, carriage return, the four separators 0x1c-0x1f and space. *)
Definition is_space (c : ascii) : bool :=
  let n := nat_of_ascii c in
  (((9 <=? n)%nat && (n <=? 13)%nat) || ((28 <=? n)%nat && (n <=? 32)%nat))%bool.

Fixpoint lstrip (s : string) : string :=
  match s with
  | EmptyString => EmptyString
  | String c t => if is_space c then lstrip t else s
  end.

Fixpoint rstrip (s : string) : string :=
  match s with
  | EmptyString => EmptyString
  | String c t =>
      match rstrip t with
      | EmptyString => if is_space c then EmptyString else String c EmptyString
      | t' => String c t'
      end
  end.

(** [s.strip()] *)
Definition strip (s : string) : string := rstrip (lstrip s).

(** [hay.startswith(needle)] *)
Fixpoint startswith (needle hay : string) : bool :=
  match needle, hay with
  | EmptyString, _ => true
  | String _ _, EmptyString => false
  | String a n', String b h' => (Ascii.eqb a b && startswith n' h')%bool
  end.

(** [needle in hay] for two strings. *)
Fixpoint str_in (needle hay : string) : bool :=
  (startswith needle hay ||
   match hay with
   | EmptyString => false
   | String _ h' => str_in needle h'
   end)%bool.

(** [bool(s)] for a string. *)
Definition str_truthy (s : string) : bool :=
  match s with EmptyString => false | _ => true end.

Definition is_digit (c : ascii) : bool :=
  let n := nat_of_ascii c in ((48 <=? n)%nat && (n <=? 57)%nat)%bool.

Definition digit_val (c : ascii) : Z := Z.of_nat (nat_of_ascii c) - 48.

(** The digits of an integer literal after its sign: at least one digit,
    single underscores allowed between digits only.  [acc] is the value
    read so far, [prev] tells whether the previous character was a
    digit. *)
Fixpoint int_digits (s : string) (acc : Z) (prev : bool) : option Z :=
  match s with
  | EmptyString => if prev then Some acc else None
  | String c t =>
      if is_digit c then int_digits t (10 * acc + digit_val c) true
      else if (Ascii.eqb c "_" && prev)%bool then
        match t with
        | String d _ => if is_digit d then int_digits t acc false else None
        | EmptyString => None
        end
      else None
  end.

(** [int(s)] for a string in base ten; [None] stands for [ValueError]. *)
Definition int_of_str (s : string) : option Z :=
  match strip s with
  | String "+" t => int_digits t 0 false
  | String "-" t => Z.opp <$> int_digits t 0 false
  | t => int_digits t 0 false
  end.

End Py.

(** ** JSON values, exceptions *)

(** The values [json.load] builds: None, bool, int, float, str, list and
    dict.  A float is an IEEE 754 value. *)
Inductive json : Type :=
  | JNull
  | JBool (b : bool)
  | JInt (n : Z)
  | JFloat (f : spec_float)
  | JStr (s : string)
  | JArr (l : list json)
  | JObj (m : gmap string json).

(** The exceptions the script can meet.  [RequestException] covers the
    whole hierarchy of [requests.exceptions]; [OSError] is a failing
    system call that is not one of them. *)
Inductive exn : Type :=
  | AttributeError
  | TypeError
  | ValueError
  | JSONDecodeError
  | FileNotFoundError
  | OSError
  | EOFError
  | RequestException.

Inductive result (A : Type) : Type :=
  | Ok (a : A)
  | Raise (e : exn).
Arguments Ok {A} a.
Arguments Raise {A} e.

Definition rbind {A B} (r : result A) (k : A -> result B) : result B :=
  match r with
  | Ok a => k a
  | Raise e => Raise e
  end.

Notation "x <- c1 ;;; c2" := (rbind c1 (fun x => c2))
  (at level 100, c1 at next level, right associativity).

Definition rmap {A B} (f : A -> B) (r : result A) : result B :=
  match r with
  | Ok a => Ok (f a)
  | Raise e => Raise e
  end.

Notation "f <$$> r" := (rmap f r) (at level 61, left associativity).

(** [bool(v)]: the truth value Python gives a JSON value. *)
Definition truthy (v : json) : bool :=
  match v with
  | JNull => false
  | JBool b => b
  | JInt n => negb (n =? 0)
  | JFloat (S754_zero _) => false
  | JFloat _ => true
  | JStr s => Py.str_truthy s
  | JArr l => match l with [] => false | _ => true end
  | JObj m => negb (bool_decide (m = ∅))
  end.

(** [bool(v)] for the result of [d.get(k)], where an absent key gives
    [None]. *)
Definition truthy_opt (v : option json) : bool :=
  match v with
  | Some x => truthy x
  | None => false
  end.

(** [v == s] for a string [s]: only the same string is equal to it. *)
Definition eq_str (s : string) (v : json) : bool :=
  match v with
  | JStr t => String.eqb s t
  | _ => false
  end.

(** [s in v] for a string [s]: a substring test on a string, membership
    in a list, key membership in a dict, [TypeError] otherwise. *)
Definition py_in (s : string) (v : json) : result bool :=
  match v with
  | JStr t => Ok (Py.str_in s t)
  | JArr l => Ok (existsb (eq_str s) l)
  | JObj m => Ok (bool_decide (is_Some (m !! s)))
  | _ => Raise TypeError
  end.

(** [v.get(k)], which only a dict has: an absent key gives [None]. *)
Definition py_get (v : json) (k : string) : result (option json) :=
  match v with
  | JObj m => Ok (m !! k)
  | _ => Raise AttributeError
  end.

(** [v.lower()], which only a string has. *)
Definition py_lower (v : json) : result string :=
  match v with
  | JStr s => Ok (Py.lower s)
  | _ => Raise AttributeError
  end.

(** ** load_api_key *)

(** What reading the key file gives. *)
Inductive key_read : Type :=
  | KeyNotFound
  | KeyUnreadable
  | KeyText (s : string).

(** [load_api_key(filename)]: the stripped text, [None] when the file is
    missing, unreadable or holds only white space. *)
Definition load_api_key (file : key_read) : option string :=
  match file with
  | KeyText s =>
      let api_key := Py.strip s in
      if Py.str_truthy api_key then Some api_key else None
  | KeyNotFound => None
  | KeyUnreadable => None
  end.

(** ** normalize_game_domain *)

(** The [mappings] dict, in the order it is written: alias tuple, then
    canonical name. *)
Definition mappings : list (list string * string) :=
  [ (["skyrimse"; "skyrimspecialedition"], "skyrimspecialedition");
    (["skyrim"; "skyrimlegendaryedition"], "skyrim");
    (["fallout4"], "fallout4");
    (["falloutnewvegas"; "falloutnv"], "falloutnv") ].

(** [name in aliases] for a tuple of strings. *)
Definition in_aliases (name : string) (aliases : list string) : bool :=
  existsb (String.eqb name) aliases.

(** The [for aliases, canonical_name in mappings.items()] loop. *)
Fixpoint lookup_mappings (name : string) (ms : list (list string * string))
  : option string :=
  match ms with
  | [] => None
  | (aliases, canonical_name) :: rest =>
      if in_aliases name aliases then Some canonical_name
      else lookup_mappings name rest
  end.

(** [normalize_game_domain(game_name_from_wabbajack)] *)
Definition normalize_game_domain (game_name_from_wabbajack : json)
  : result string :=
  game_name_lower <- py_lower game_name_from_wabbajack ;;;
  match lookup_mappings game_name_lower mappings with
  | Some canonical_name => Ok canonical_name
  | None => Ok game_name_lower
  end.

(** ** get_nexus_download_url *)

(** The reply of the API as the function reads it: [response.ok], the
    Content-Type header and what [response.json()] gives ([None] when the
    body is not JSON). *)
Record response : Type := {
  resp_ok : bool;
  content_type : option string;
  resp_json : option json
}.

(** [requests.get] either raises or answers. *)
Inductive api_reply : Type :=
  | ApiUnreachable
  | ApiResponse (r : response).

(** Which of the three messages announced the link that is returned. *)
Inductive pick : Type :=
  | ByHost
  | ByName
  | Fallback.

(** How a call ended: a link, or the message printed before [return
    None]. *)
Inductive link_outcome : Type :=
  | Found (why : pick) (uri : json)
  | ApiError
  | NotJson
  | NoLinks
  | NoUsableLink
  | NetworkError
  | DecodeError
  | InternalError (e : exn).

(** The value the function returns. *)
Definition returned (o : link_outcome) : option json :=
  match o with
  | Found _ uri => Some uri
  | _ => None
  end.

(** [v == s] where [v] comes from [link.get(...)]. *)
Definition opt_eq_str (v : option json) (s : string) : bool :=
  match v with
  | Some x => eq_str s x
  | None => false
  end.

(** [isinstance(link, dict) and key in link] *)
Definition dict_has (link : json) (key : string) : bool :=
  match link with
  | JObj m => bool_decide (is_Some (m !! key))
  | _ => false
  end.

(** [link[key]] once [dict_has link key] holds. *)
Definition dict_item (link : json) (key : string) : json :=
  match link with
  | JObj m => default JNull (m !! key)
  | _ => JNull
  end.

(** [link.get(key)] for a dict. *)
Definition dict_get (link : json) (key : string) : option json :=
  match link with
  | JObj m => m !! key
  | _ => None
  end.

(** The first loop over [download_link_data]: [Ok (Some _)] is a
    [return] from inside the loop, [Ok None] falling out of it. *)
Fixpoint preferred_link (data : list json) : result (option (pick * json)) :=
  match data with
  | [] => Ok None
  | link :: rest =>
      if negb (dict_has link "URI" && dict_has link "name") then
        preferred_link rest
      else
        by_host <- py_in "filedelivery.nexusmods.com" (dict_item link "URI") ;;;
        if by_host then Ok (Some (ByHost, dict_item link "URI"))
        else if opt_eq_str (dict_get link "short_name") "Direct Download"
                || opt_eq_str (dict_get link "name") "Primary Download"
        then Ok (Some (ByName, dict_item link "URI"))
        else preferred_link rest
  end.

(** [next((link['URI'] for link in data if isinstance(link, dict) and
    'URI' in link), None)] *)
Fixpoint first_valid_link (data : list json) : option json :=
  match data with
  | [] => None
  | link :: rest =>
      if dict_has link "URI" then Some (dict_item link "URI")
      else first_valid_link rest
  end.

(** The part of the body after [download_link_data = response.json()]. *)
Definition select_link (download_link_data : json) : link_outcome :=
  match download_link_data with
  | JArr [] => NoLinks
  | JArr data =>
      match preferred_link data with
      | Raise e => InternalError e
      | Ok (Some (why, uri)) => Found why uri
      | Ok None =>
          match first_valid_link data with
          | Some uri => if truthy uri then Found Fallback uri else NoUsableLink
          | None => NoUsableLink
          end
      end
  | _ => NoLinks
  end.

(** The branch taken when [response.ok] is false. *)
Definition api_error (r : response) : link_outcome :=
  match resp_json r with
  | None => ApiError
  | Some error_json =>
      match py_in "message" error_json with
      | Raise e => InternalError e
      | Ok false => ApiError
      | Ok true =>
          match error_json with
          | JObj m =>
              match m !! "message" with
              | Some (JStr _) => ApiError
              | _ => InternalError TypeError
              end
          | _ => InternalError TypeError
          end
      end
  end.

(** The [try] block. *)
Definition request_link (reply : api_reply) : link_outcome :=
  match reply with
  | ApiUnreachable => NetworkError
  | ApiResponse r =>
      if negb (resp_ok r) then api_error r
      else if negb (Py.str_in "application/json"
                      (Py.lower (default "" (content_type r))))
      then NotJson
      else
        match resp_json r with
        | None => DecodeError
        | Some download_link_data => select_link download_link_data
        end
  end.

(** [get_nexus_download_url(game_id, mod_id, file_id, api_key)].  The
    identifiers and the key only shape the request, whose reply is
    [reply]; the game name is normalized before the [try], so that call
    can raise. *)
Definition get_nexus_download_url (reply : api_reply) (game_id : json)
  : result link_outcome :=
  _ <- normalize_game_domain game_id ;;;
  Ok (request_link reply).

(** ** download_file *)

Abbreviation bytes := (list Byte.byte).

(** The files on disk, by path. *)
Abbreviation disk := (gmap string bytes).

Definition DOWNLOAD_DIRECTORY : string := "downloads".

(** [os.path.join(DOWNLOAD_DIRECTORY, local_filename)] on a POSIX system:
    an absolute second component replaces the first; a component that is
    not a string raises [TypeError]. *)
Definition path_join (dir : string) (name : json) : result string :=
  match name with
  | JStr n =>
      if Py.startswith "/" n then Ok n else Ok (dir ++ "/" ++ n)
  | _ => Raise TypeError
  end.

(** How the body of a streamed reply ends. *)
Inductive stream_end : Type :=
  | EndOfBody
  | ConnectionBroken.

(** What [requests.get(download_url, stream=True)] does: it raises, or it
    answers with a status, possibly a content-length header, and a body
    that [iter_content] delivers chunk by chunk until it ends or the
    connection breaks. *)
Inductive http_get : Type :=
  | GetFails
  | GetResponse (status_ok : bool) (content_length : option string)
      (chunks : list bytes) (ending : stream_end).

(** What the operating system does during one call: whether
    [os.makedirs], [open] and [os.remove] fail, and how many [f.write]
    calls succeed before one fails ([None]: they all succeed). *)
Record syscalls : Type := {
  makedirs_fails : bool;
  open_fails : bool;
  good_writes : option nat;
  remove_fails : bool
}.

(** The state of the [for chunk in r.iter_content(...)] loop: what the
    file holds and what the progress bar has counted. *)
Record transfer : Type := {
  written : bytes;
  pbar_n : Z
}.

(** The loop itself.  An empty chunk is skipped; a write either succeeds
    and is counted or raises [OSError]; when the chunks are exhausted the
    iterator stops or raises a [RequestException]. *)
Fixpoint stream_to_file (chunks : list bytes) (ending : stream_end)
    (budget : option nat) (t : transfer) : result unit * transfer :=
  match chunks with
  | [] =>
      match ending with
      | EndOfBody => (Ok tt, t)
      | ConnectionBroken => (Raise RequestException, t)
      end
  | chunk :: rest =>
      match chunk with
      | [] => stream_to_file rest ending budget t
      | _ :: _ =>
          match budget with
          | Some O => (Raise OSError, t)
          | _ =>
              stream_to_file rest ending (pred <$> budget)
                {| written := written t ++ chunk;
                   pbar_n := pbar_n t + Z.of_nat (length chunk) |}
          end
      end
  end.

(** [int(r.headers.get('content-length', 0))] *)
Definition total_size_bytes (content_length : option string) : result Z :=
  match content_length with
  | None => Ok 0
  | Some s =>
      match Py.int_of_str s with
      | Some n => Ok n
      | None => Raise ValueError
      end
  end.

(** The [try] block, on the path [local_filepath]. *)
Definition fetch (net : http_get) (os : syscalls) (local_filepath : string)
    (d : disk) : result unit * disk :=
  match net with
  | GetFails => (Raise RequestException, d)
  | GetResponse status_ok content_length chunks ending =>
      if negb status_ok then (Raise RequestException, d)
      else
        match total_size_bytes content_length with
        | Raise e => (Raise e, d)
        | Ok _ =>
            if open_fails os then (Raise OSError, d)
            else
              let '(r, t) :=
                stream_to_file chunks ending (good_writes os)
                  {| written := []; pbar_n := 0 |} in
              (r, <[local_filepath := written t]> d)
        end
  end.

(** The two [except] clauses.  The first removes the file when it exists
    and returns [False]; a failing [os.remove] raises out of the handler.
    The second only returns [False]. *)
Definition handle (e : exn) (os : syscalls) (local_filepath : string)
    (d : disk) : result bool * disk :=
  match e with
  | RequestException =>
      if bool_decide (is_Some (d !! local_filepath)) then
        if remove_fails os then (Raise OSError, d)
        else (Ok false, delete local_filepath d)
      else (Ok false, d)
  | _ => (Ok false, d)
  end.

(** [download_file(download_url, local_filename)]; the URL only shapes
    the request, whose course is [net]. *)
Definition download_file (net : http_get) (os : syscalls)
    (local_filename : json) (d : disk) : result bool * disk :=
  if makedirs_fails os then (Raise OSError, d)
  else
    match path_join DOWNLOAD_DIRECTORY local_filename with
    | Raise e => (Raise e, d)
    | Ok local_filepath =>
        match fetch net os local_filepath d with
        | (Ok _, d') => (Ok true, d')
        | (Raise e, d') => handle e os local_filepath d'
        end
    end.

(** ** parse_wabbajack_json *)

(** What opening the manifest and [json.load] give. *)
Inductive file_read : Type :=
  | ReadNotFound
  | ReadNotJson
  | ReadFails
  | ReadJson (data : json).

(** The dict appended to [downloadable_files]. *)
Record downloadable : Type := {
  game_domain : json;
  mod_id : json;
  file_id : json;
  filename : json
}.

(** [len(v)] and [for x in v] exist for a list, a string and a dict, and
    raise [TypeError] otherwise; a string yields its characters and a
    dict its keys. *)
Definition py_iter (v : json) : result (list json) :=
  match v with
  | JArr l => Ok l
  | JStr s => Ok ((fun c => JStr (String c EmptyString)) <$> list_ascii_of_string s)
  | JObj m => Ok (JStr <$> (map_to_list m).*1)
  | _ => Raise TypeError
  end.

(** [filter_string.lower() if filter_string else None] *)
Definition filter_lower_of (filter_string : option string) : option string :=
  match filter_string with
  | Some f => if Py.str_truthy f then Some (Py.lower f) else None
  | None => None
  end.

(** The filter test on an entry that passed validation: [Ok false] is the
    [continue].  The game name is only lower-cased when the file name does
    not match. *)
Definition passes_filter (filter_lower : option string)
    (filename game_name : json) : result bool :=
  match filter_lower with
  | Some f =>
      if Py.str_truthy f then
        name_lower <- py_lower filename ;;;
        if negb (Py.str_in f name_lower) then
          game_lower <- py_lower game_name ;;;
          Ok (Py.str_in f game_lower)
        else Ok true
      else Ok true
  | None => Ok true
  end.

(** One turn of the [for archive in archives] loop: the dict to append,
    if any. *)
Definition extract_archive (filter_lower : option string) (archive : json)
  : result (option downloadable) :=
  state_opt <- py_get archive "State" ;;;
  let state := default (JObj ∅) state_opt in
  type_opt <- py_get state "$type" ;;;
  let state_type := default (JStr "") type_opt in
  is_nexus <- py_in "NexusDownloader" state_type ;;;
  if is_nexus then
    mod_id <- py_get state "ModID" ;;;
    file_id <- py_get state "FileID" ;;;
    game_name <- py_get state "GameName" ;;;
    filename <- py_get archive "Name" ;;;
    if negb (truthy_opt mod_id && truthy_opt file_id
             && truthy_opt game_name && truthy_opt filename)
    then Ok None
    else
      keep <- passes_filter filter_lower (default JNull filename)
                (default JNull game_name) ;;;
      if keep then
        Ok (Some {| game_domain := default JNull game_name;
                    mod_id := default JNull mod_id;
                    file_id := default JNull file_id;
                    filename := default JNull filename |})
      else Ok None
  else Ok None.

(** The whole loop, building [downloadable_files] in order. *)
Fixpoint extract_archives (filter_lower : option string) (archives : list json)
  : result (list downloadable) :=
  match archives with
  | [] => Ok []
  | archive :: rest =>
      o <- extract_archive filter_lower archive ;;;
      files <- extract_archives filter_lower rest ;;;
      Ok (match o with Some item => item :: files | None => files end)
  end.

(** [parse_wabbajack_json(filepath, filter_string)] *)
Definition parse_wabbajack_json (file : file_read)
    (filter_string : option string) : result (list downloadable) :=
  match file with
  | ReadNotFound => Ok []
  | ReadNotJson => Ok []
  | ReadFails => Ok []
  | ReadJson data =>
      archives <- py_get data "Archives" ;;;
      match archives with
      | None => Ok []
      | Some JNull => Ok []
      | Some archives =>
          entries <- py_iter archives ;;;
          extract_archives (filter_lower_of filter_string) entries
      end
  end.

(** ** The __main__ block *)

(** The command line after [parser.parse_args()]. *)
Record args : Type := {
  arg_key : string;
  arg_wabbajack_json : option string;
  arg_filter : option string
}.

(** What the network and the operating system do at the n-th attempt of
    a run (attempts are counted from 0). *)
Record world : Type := {
  api_at : nat -> api_reply;
  get_at : nat -> http_get;
  os_at : nat -> syscalls
}.

(** What the script finds when it starts. *)
Record environment : Type := {
  key_file : key_read;
  manifest : file_read;
  outside : world;
  stdin : list string;
  disk0 : disk
}.

(** What a user can observe of a run: a prompt for a selection, and the
    report that closes the attempt on one item ([None]: no link was
    obtained, [Some b]: [download_file] returned [b]). *)
Inductive event : Type :=
  | Asked
  | Attempted (item : downloadable) (o : link_outcome) (downloaded : option bool).

Record state : Type := {
  files : disk;
  attempts : nat;
  log : list event
}.

Definition record (ev : event) (s : state) : state :=
  {| files := files s; attempts := attempts s; log := log s ++ [ev] |}.

(** The argument of [exit(...)]. *)
Inductive exit_arg : Type :=
  | ExitCode (n : Z)
  | ExitMessage (s : string).

(** How the process ends: [exit] was called, the script ran to its last
    line, an exception reached the top level, or the prompt loop spins
    for ever. *)
Inductive termination : Type :=
  | SystemExit (a : exit_arg)
  | EndOfScript
  | Uncaught (e : exn)
  | Diverges.

(** The exit status of the interpreter: [exit(n)] gives [n], [exit] with
    a string prints it and gives 1, the end of the script gives 0, a
    traceback gives 1. *)
Definition exit_status (t : termination) : option Z :=
  match t with
  | SystemExit (ExitCode n) => Some n
  | SystemExit (ExitMessage _) => Some 1
  | EndOfScript => Some 0
  | Uncaught _ => Some 1
  | Diverges => None
  end.

(** Resolve one item and download it: the body of the [for
    item_to_download] loop, and the tail of the manual mode. *)
Definition attempt (w : world) (item : downloadable) (s : state)
  : result unit * state :=
  let n := attempts s in
  match get_nexus_download_url (api_at w n) (game_domain item) with
  | Raise e =>
      (Raise e, {| files := files s; attempts := S n; log := log s |})
  | Ok o =>
      if truthy_opt (returned o) then
        match download_file (get_at w n) (os_at w n) (filename item) (files s) with
        | (Ok download_success, d) =>
            (Ok tt, {| files := d; attempts := S n;
                       log := log s ++ [Attempted item o (Some download_success)] |})
        | (Raise e, d) =>
            (Raise e, {| files := d; attempts := S n; log := log s |})
        end
      else
        (Ok tt, {| files := files s; attempts := S n;
                   log := log s ++ [Attempted item o None] |})
  end.

(** [for item_to_download in selected_items: ...] *)
Fixpoint attempt_each (w : world) (selected_items : list downloadable)
    (s : state) : result unit * state :=
  match selected_items with
  | [] => (Ok tt, s)
  | item :: rest =>
      match attempt w item s with
      | (Ok _, s') => attempt_each w rest s'
      | (Raise e, s') => (Raise e, s')
      end
  end.

(** The [while True] loop of the manifest mode, one turn per line of
    standard input.  Both [except] clauses go back to the prompt; when
    the input is exhausted [input()] raises [EOFError] at every turn and
    the loop never ends. *)
Fixpoint selection_loop (w : world) (downloadables : list downloadable)
    (lines : list string) (s : state) : termination * state :=
  match lines with
  | [] => (Diverges, s)
  | line :: rest =>
      let s := record Asked s in
      let selection := Py.lower (Py.strip line) in
      if String.eqb selection "q" then (EndOfScript, s)
      else if String.eqb selection "all" then
        selection_loop w downloadables rest (attempt_each w downloadables s).2
      else
        match Py.int_of_str selection with
        | None => selection_loop w downloadables rest s
        | Some k =>
            let selected_index := k - 1 in
            if (0 <=? selected_index)
               && (selected_index <? Z.of_nat (length downloadables))
            then
              match downloadables !! Z.to_nat selected_index with
              | Some item =>
                  match attempt_each w [item] s with
                  | (Ok _, s') => (EndOfScript, s')
                  | (Raise _, s') => selection_loop w downloadables rest s'
                  end
              | None => selection_loop w downloadables rest s
              end
            else selection_loop w downloadables rest s
        end
  end.

(** The manual mode: four lines are read, the two identifiers are
    converted, one item is attempted. *)
Definition manual_mode (w : world) (lines : list string) (s : state)
  : termination * state :=
  match lines with
  | l1 :: l2 :: l3 :: l4 :: _ =>
      let game_id := Py.strip l1 in
      let mod_id_str := Py.strip l2 in
      let file_id_str := Py.strip l3 in
      let filename := Py.strip l4 in
      match Py.int_of_str mod_id_str, Py.int_of_str file_id_str with
      | Some mod_id, Some file_id =>
          match attempt w {| game_domain := JStr game_id; mod_id := JInt mod_id;
                             file_id := JInt file_id; filename := JStr filename |} s
          with
          | (Ok _, s') => (EndOfScript, s')
          | (Raise e, s') => (Uncaught e, s')
          end
      | _, _ => (SystemExit (ExitCode 1), s)
      end
  | _ => (Uncaught EOFError, s)
  end.

(** [if args.wabbajack_json:] *)
Definition manifest_mode_chosen (a : args) : bool :=
  match arg_wabbajack_json a with
  | Some p => Py.str_truthy p
  | None => false
  end.

(** The script, from [load_api_key(args.key)] on. *)
Definition main (a : args) (env : environment) : termination * state :=
  let s := {| files := disk0 env; attempts := O; log := [] |} in
  match load_api_key (key_file env) with
  | None =>
      (SystemExit
         (ExitMessage "Exiting. Please ensure your API key is correctly set up."), s)
  | Some api_key =>
      if manifest_mode_chosen a then
        match parse_wabbajack_json (manifest env) (arg_filter a) with
        | Raise e => (Uncaught e, s)
        | Ok [] => (SystemExit (ExitCode 0), s)
        | Ok downloadables =>
            selection_loop (outside env) downloadables (stdin env) s
        end
      else manual_mode (outside env) (stdin env) s
  end.

(** * The vocabulary of the specification *)

(** ** Slugs *)

(** The canonical slugs: the values of [mappings]. *)
Definition canonical_slugs : list string := snd <$> mappings.

(** No alias tuple of [mappings] holds [name]. *)
Definition unmapped (name : string) : Prop :=
  Forall (fun entry : list string * string => name ∉ entry.1) mappings.

(** ** Candidates of the link resolver *)

(** A candidate of the API's answer, as section 3 of the specification
    types it, and the JSON object that carries it. *)
Record CandidateLink : Type := {
  uri : string;
  name : string;
  short_name : option string
}.

#[global] Instance CandidateLink_eq_dec : EqDecision CandidateLink.
Proof. solve_decision. Defined.

Definition link_json (c : CandidateLink) : json :=
  JObj (<["URI" := JStr (uri c)]>
          (<["name" := JStr (name c)]>
             (match short_name c with
              | Some s => {["short_name" := JStr s]}
              | None => ∅
              end))).

(** A successful reply with a JSON content type and the given body. *)
Definition json_reply (body : json) : api_reply :=
  ApiResponse {| resp_ok := true;
                 content_type := Some "application/json";
                 resp_json := Some body |}.

(** What the resolver hands back for a list of candidates. *)
Definition resolve (cs : list CandidateLink) : result (option json) :=
  returned <$$> get_nexus_download_url (json_reply (JArr (link_json <$> cs)))
                  (JStr "skyrimse").

(** The two preferences of the selection policy. *)
Definition by_host (c : CandidateLink) : bool :=
  Py.str_in "filedelivery.nexusmods.com" (uri c).

Definition by_name (c : CandidateLink) : bool :=
  bool_decide (short_name c = Some "Direct Download")
  || bool_decide (name c = "Primary Download").

Definition preferred (c : CandidateLink) : bool := by_host c || by_name c.

(** The body is a non-empty JSON list. *)
Definition nonempty_list (body : json) : bool :=
  match body with
  | JArr (_ :: _) => true
  | _ => false
  end.

(** The three candidates of the specification's example. *)
Definition other : CandidateLink :=
  {| uri := "https://cdn.example/x"; name := "Other"; short_name := None |}.
Definition mirror : CandidateLink :=
  {| uri := "https://filedelivery.nexusmods.com/y"; name := "Mirror";
     short_name := None |}.
Definition primary : CandidateLink :=
  {| uri := "https://cdn.example/z"; name := "Primary Download";
     short_name := None |}.


(** ** Downloads *)

(** The state of the loop before the first chunk. *)
Definition no_transfer : transfer := {| written := []; pbar_n := 0 |}.

(** An operating system on which nothing fails but, possibly,
    [os.remove]. *)
Definition healthy (os : syscalls) : Prop :=
  makedirs_fails os = false /\ open_fails os = false /\ good_writes os = None.

(** A reply whose body breaks off after two bytes, one whose body is two
    chunks of two bytes, and three operating systems: one where nothing
    fails, one where [os.remove] fails, one where the second write
    fails. *)
Definition broken_reply : http_get :=
  GetResponse true (Some "4") [[Byte.x01; Byte.x02]] ConnectionBroken.

Definition two_chunks : http_get :=
  GetResponse true (Some "4") [[Byte.x01; Byte.x02]; [Byte.x03; Byte.x04]] EndOfBody.

Definition all_good : syscalls :=
  {| makedirs_fails := false; open_fails := false;
     good_writes := None; remove_fails := false |}.

Definition remove_denied : syscalls :=
  {| makedirs_fails := false; open_fails := false;
     good_writes := None; remove_fails := true |}.

Definition disk_full_after_one : syscalls :=
  {| makedirs_fails := false; open_fails := false;
     good_writes := Some 1%nat; remove_fails := false |}.

(** ** Manifests *)

(** A manifest: a top-level object whose "Archives" key holds the list
    of entries, next to any other keys. *)
Definition manifest_of (others : gmap string json) (archives : list json) : json :=
  JObj (<["Archives" := JArr archives]> others).

(** The "State" object of an entry, empty when the entry has none. *)
Definition state_of (archive : json) : json :=
  default (JObj ∅) (dict_get archive "State").

(** A field of the "State" object, and the "Name" of the entry. *)
Definition field (archive : json) (k : string) : option json :=
  dict_get (state_of archive) k.

Definition display_name (archive : json) : option json :=
  dict_get archive "Name".

(** The shape the manifest contract gives an entry: an object, whose
    "State", when present, is an object, whose "$type", when present, is
    a string. *)
Definition well_shaped (archive : json) : bool :=
  match archive with
  | JObj a =>
      match a !! "State" with
      | None => true
      | Some (JObj st) =>
          match st !! "$type" with
          | None => true
          | Some (JStr _) => true
          | Some _ => false
          end
      | Some _ => false
      end
  | _ => false
  end.

(** The entry's State "$type" is a string that contains
    "NexusDownloader". *)
Definition is_nexus (archive : json) : bool :=
  match field archive "$type" with
  | Some (JStr t) => Py.str_in "NexusDownloader" t
  | _ => false
  end.

(** The empty values: null, false, zero, the empty string, the empty
    list and the empty object. *)
Definition empty_value (v : json) : bool :=
  match v with
  | JNull => true
  | JBool b => negb b
  | JInt n => bool_decide (n = 0)
  | JFloat f => match f with S754_zero _ => true | _ => false end
  | JStr s => match s with "" => true | _ => false end
  | JArr l => match l with [] => true | _ => false end
  | JObj m => bool_decide (m = ∅)
  end.

(** Present and non-empty: the key is there and its value is not an
    empty value. *)
Definition present_nonempty (v : option json) : bool :=
  match v with
  | Some x => negb (empty_value x)
  | None => false
  end.

(** A Nexus entry with its four fields present and non-empty. *)
Definition qualifies (archive : json) : bool :=
  is_nexus archive
  && present_nonempty (field archive "ModID")
  && present_nonempty (field archive "FileID")
  && present_nonempty (field archive "GameName")
  && present_nonempty (display_name archive).

(** The request an entry stands for. *)
Definition request_of (archive : json) : downloadable :=
  {| game_domain := default JNull (field archive "GameName");
     mod_id := default JNull (field archive "ModID");
     file_id := default JNull (field archive "FileID");
     filename := default JNull (display_name archive) |}.

(** All four fields of a request are non-empty. *)
Definition complete (r : downloadable) : bool :=
  negb (empty_value (game_domain r)) && negb (empty_value (mod_id r))
  && negb (empty_value (file_id r)) && negb (empty_value (filename r)).

(** The display name and the game name of a qualifying entry are
    strings. *)
Definition names_are_strings (archive : json) : bool :=
  negb (qualifies archive) ||
  match display_name archive, field archive "GameName" with
  | Some (JStr _), Some (JStr _) => true
  | _, _ => false
  end.

(** The substring [f] occurs, case ignored, in the display name or in
    the game name of the entry. *)
Definition matches (f : string) (archive : json) : bool :=
  match display_name archive, field archive "GameName" with
  | Some (JStr n), Some (JStr g) =>
      Py.str_in (Py.lower f) (Py.lower n) || Py.str_in (Py.lower f) (Py.lower g)
  | _, _ => false
  end.

(** One of the four fields is present but zero or the empty string. *)
Definition zero_or_empty_field (archive : json) : Prop :=
  field archive "ModID" = Some (JInt 0) \/
  field archive "FileID" = Some (JInt 0) \/
  field archive "GameName" = Some (JStr "") \/
  display_name archive = Some (JStr "").

(** One of the four fields is absent. *)
Definition missing_field (archive : json) : Prop :=
  field archive "ModID" = None \/
  field archive "FileID" = None \/
  field archive "GameName" = None \/
  display_name archive = None.

(** A small manifest: a Nexus entry, an entry of another downloader, a
    Nexus entry without "FileID", a Nexus entry whose "ModID" is 0, and
    the first entry again. *)
Definition nexus_state (game : string) (mod_id file_id : Z) : json :=
  JObj {[ "$type" := JStr "NexusDownloader, Wabbajack.Lib";
          "GameName" := JStr game;
          "ModID" := JInt mod_id;
          "FileID" := JInt file_id ]}.

Definition entry (name : string) (state : json) : json :=
  JObj {[ "Name" := JStr name; "State" := state ]}.

Definition skyui : json := entry "SkyUI_5_2_SE.7z" (nexus_state "SkyrimSE" 12604 35407).

Definition http_entry : json :=
  entry "tool.zip" (JObj {[ "$type" := JStr "HttpDownloader, Wabbajack.Lib" ]}).

Definition no_file_id : json :=
  entry "patch.7z"
    (JObj {[ "$type" := JStr "NexusDownloader, Wabbajack.Lib";
             "GameName" := JStr "Fallout4";
             "ModID" := JInt 77 ]}).

Definition zero_mod_id : json := entry "zero.7z" (nexus_state "Fallout4" 0 5).

Definition sample_archives : list json :=
  [skyui; http_entry; no_file_id; zero_mod_id; skyui].

Definition skyui_request : downloadable :=
  {| game_domain := JStr "SkyrimSE"; mod_id := JInt 12604;
     file_id := JInt 35407; filename := JStr "SkyUI_5_2_SE.7z" |}.

(** ** Runs *)

(** The normalized form of a typed line: [input(...).strip().lower()]. *)
Definition selection_of (line : string) : string := Py.lower (Py.strip line).

(** The number of prompts for a selection recorded so far. *)
Definition is_asked (ev : event) : bool :=
  match ev with
  | Asked => true
  | Attempted _ _ _ => false
  end.

Definition prompts (s : state) : nat := length (List.filter is_asked (log s)).

(** A line that can end the selection loop: the quit token, or the
    number of a listed item. *)
Definition ends_selection (downloadables : list downloadable) (line : string) : Prop :=
  selection_of line = "q" \/
  exists k : Z,
    Py.int_of_str (selection_of line) = Some k /\
    1 <= k <= Z.of_nat (length downloadables).

(** The manual mode got its four lines and one of the two identifiers is
    not an integer. *)
Definition manual_ids_malformed (lines : list string) : Prop :=
  exists l1 l2 l3 l4 more,
    lines = l1 :: l2 :: l3 :: l4 :: more /\
    (Py.int_of_str (Py.strip l2) = None \/ Py.int_of_str (Py.strip l3) = None).

(** The message of the [exit] that follows a missing key. *)
Definition no_key_message : string :=
  "Exiting. Please ensure your API key is correctly set up.".

(** A world in which the API is unreachable, and three ways to start the
    script in it: without a key file, in manifest mode on the sample
    manifest, in manual mode. *)
Definition offline : world :=
  {| api_at := fun _ => ApiUnreachable;
     get_at := fun _ => GetFails;
     os_at := fun _ => all_good |}.

Definition manual_args : args :=
  {| arg_key := "key.txt"; arg_wabbajack_json := None; arg_filter := None |}.

Definition manifest_args : args :=
  {| arg_key := "key.txt"; arg_wabbajack_json := Some "modlist.json";
     arg_filter := None |}.

Definition no_key_env : environment :=
  {| key_file := KeyNotFound; manifest := ReadNotFound; outside := offline;
     stdin := []; disk0 := ∅ |}.

Definition sample_env (lines : list string) : environment :=
  {| key_file := KeyText "secret
";
     manifest := ReadJson (manifest_of ∅ sample_archives);
     outside := offline; stdin := lines; disk0 := ∅ |}.

(** * Further vocabulary *)

(** The reply is a success with a JSON content type. *)
Definition json_success (r : response) : Prop :=
  resp_ok r = true /\
  Py.str_in "application/json" (Py.lower (default "" (content_type r))) = true.

(** A value that the [in] operator cannot search: None, a bool or a
    number. *)
Definition not_iterable (v : json) : bool :=
  match v with
  | JNull | JBool _ | JInt _ | JFloat _ => true
  | JStr _ | JArr _ | JObj _ => false
  end.

(** The first loop passes over the entry: it is not a dict, or lacks
    "URI" or "name". *)
Definition skipped (link : json) : bool :=
  negb (dict_has link "URI" && dict_has link "name").

(** An entry on which the loop raises [AttributeError]: it is not an
    object, or its "State" is present and is not an object. *)
Definition breaks_loop (archive : json) : bool :=
  match archive with
  | JObj a =>
      match a !! "State" with
      | None => false
      | Some (JObj _) => false
      | Some _ => true
      end
  | _ => true
  end.

(** A manifest file from which nothing can be extracted, without any
    exception: it is missing, unreadable or not JSON, or it is an object
    whose "Archives" is absent, null or an empty list. *)
Definition nothing_to_read (file : file_read) : Prop :=
  file = ReadNotFound \/ file = ReadNotJson \/ file = ReadFails \/
  exists m : gmap string json,
    file = ReadJson (JObj m) /\
    (m !! "Archives" = None \/ m !! "Archives" = Some JNull \/
     m !! "Archives" = Some (JArr [])).

(** The state in which the script starts. *)
Definition initial (env : environment) : state :=
  {| files := disk0 env; attempts := O; log := [] |}.

(** An item whose game name and file name are strings. *)
Definition plain_item (item : downloadable) : bool :=
  match game_domain item, filename item with
  | JStr _, JStr _ => true
  | _, _ => false
  end.

(** At the n-th attempt the download directory can be created and
    files can be removed. *)
Definition dependable_at (w : world) (n : nat) : Prop :=
  makedirs_fails (os_at w n) = false /\ remove_fails (os_at w n) = false.

(** The item an event reports on, if any. *)
Definition reported (ev : event) : option downloadable :=
  match ev with
  | Attempted item _ _ => Some item
  | Asked => None
  end.


(** An item as the extractor emits it for an entry whose "GameName" is
    the number 5. *)
Definition numeric_game_item : downloadable :=
  {| game_domain := JInt 5; mod_id := JInt 1; file_id := JInt 2;
     filename := JStr "odd.7z" |}.
(** * Properties *)

(** ** Python strings *)

Example lower_mixed_case : Py.lower "SkyrimSE_01" = "skyrimse_01".
Proof. reflexivity. Qed.

Example strip_both_ends : Py.strip "  a b
 " = "a b".
Proof. reflexivity. Qed.

Example int_of_signed : Py.int_of_str " -1_2 " = Some (-12).
Proof. reflexivity. Qed.

Example int_of_malformed :
  Py.int_of_str "1__2" = None /\ Py.int_of_str "12x" = None /\
  Py.int_of_str "" = None /\ Py.int_of_str "all" = None.
Proof. repeat split; reflexivity. Qed.

Example substring_of_uri :
  Py.str_in "filedelivery.nexusmods.com" "https://filedelivery.nexusmods.com/y" = true.
Proof. reflexivity. Qed.

Lemma lower_ascii_idem (c : ascii) :
  Py.lower_ascii (Py.lower_ascii c) = Py.lower_ascii c.
Proof. destruct c as [[] [] [] [] [] [] [] []]; reflexivity. Qed.

Lemma lower_idem (s : string) : Py.lower (Py.lower s) = Py.lower s.
Proof.
  induction s as [|c t IH]; simpl; [reflexivity|].
  rewrite lower_ascii_idem, IH. reflexivity.
Qed.

Lemma startswith_spec (needle hay : string) :
  Py.startswith needle hay = true <-> exists rest, hay = needle ++ rest.
Proof.
  revert hay. induction needle as [|a n IH]; intros hay; simpl.
  - split; [intros _; exists hay; reflexivity | reflexivity].
  - destruct hay as [|b h]; simpl.
    + split; [discriminate | intros [rest H]; discriminate].
    + rewrite andb_true_iff, Ascii.eqb_eq, IH. split.
      * intros [-> [rest ->]]. exists rest. reflexivity.
      * intros [rest H]. injection H as -> ->. split; [reflexivity | eauto].
Qed.

(** [str_in] is the substring test: the needle occurs somewhere in the
    haystack. *)
Lemma str_in_spec (needle hay : string) :
  Py.str_in needle hay = true <->
  exists before after, hay = before ++ needle ++ after.
Proof.
  induction hay as [|b h IH].
  - simpl. rewrite orb_false_r, startswith_spec. split.
    + intros [rest H]. exists "", rest. exact H.
    + intros [[|c before] [after H]]; [exists after; exact H | discriminate].
  - cbn [Py.str_in]. rewrite orb_true_iff, startswith_spec, IH. split.
    + intros [[rest H] | (before & after & H)].
      * exists "", rest. exact H.
      * exists (String b before), after. simpl. rewrite H. reflexivity.
    + intros [[|c before] [after H]].
      * left. exists after. exact H.
      * right. simpl in H. injection H as _ H. eauto.
Qed.

Lemma str_in_empty (hay : string) : Py.str_in "" hay = true.
Proof. destruct hay; reflexivity. Qed.

(** ** DomainNormalizer *)

Lemma lookup_mappings_canonical (name c : string) :
  lookup_mappings name mappings = Some c -> c ∈ canonical_slugs.
Proof.
  intros H. unfold mappings in H. cbn [lookup_mappings] in H.
  repeat (destruct (in_aliases name _) in H;
          [injection H as <-; cbv [canonical_slugs mappings fmap list_fmap snd];
           set_solver|]).
  discriminate.
Qed.

Lemma canonical_fixed (c : string) :
  c ∈ canonical_slugs -> normalize_game_domain (JStr c) = Ok c.
Proof.
  unfold canonical_slugs, mappings. simpl. intros H.
  repeat (apply elem_of_cons in H as [-> | H]; [reflexivity|]).
  apply elem_of_nil in H. destruct H.
Qed.

Lemma in_aliases_spec (name : string) (aliases : list string) :
  in_aliases name aliases = true <-> name ∈ aliases.
Proof.
  unfold in_aliases. rewrite existsb_exists. split.
  - intros (x & Hx & He). apply String.eqb_eq in He. subst.
    apply list_elem_of_In. exact Hx.
  - intros H. exists name. split; [apply list_elem_of_In; exact H|].
    apply String.eqb_refl.
Qed.

Lemma lookup_mappings_unmapped (name : string) :
  unmapped name -> lookup_mappings name mappings = None.
Proof.
  unfold unmapped. generalize mappings. intros ms H.
  induction H as [|[aliases c] rest Hout _ IH]; simpl; [reflexivity|].
  destruct (in_aliases name aliases) eqn:E; [|exact IH].
  apply in_aliases_spec in E. destruct (Hout E).
Qed.

(** C6. DomainNormalizer is total on strings (every string has a
    result, no exception), idempotent (normalizing a result gives it
    back), leaves every canonical slug unchanged, sends "SkyrimSE" to
    "skyrimspecialedition" and "unknown_game" to itself, and returns an
    input that no alias tuple holds lower-cased and otherwise
    unchanged. *)
Theorem normalize_game_domain_total_idempotent :
  (forall s : string, exists t : string,
      normalize_game_domain (JStr s) = Ok t /\
      normalize_game_domain (JStr t) = Ok t) /\
  (forall c : string, c ∈ canonical_slugs ->
      normalize_game_domain (JStr c) = Ok c) /\
  normalize_game_domain (JStr "SkyrimSE") = Ok "skyrimspecialedition" /\
  normalize_game_domain (JStr "unknown_game") = Ok "unknown_game" /\
  (forall s : string, unmapped (Py.lower s) ->
      normalize_game_domain (JStr s) = Ok (Py.lower s)).
Proof.
  split; [|split; [|split; [|split]]].
  - intros s. unfold normalize_game_domain at 1. cbn [py_lower rbind].
    destruct (lookup_mappings (Py.lower s) mappings) as [c|] eqn:E.
    + exists c. split; [reflexivity|].
      apply canonical_fixed. eapply lookup_mappings_canonical. exact E.
    + exists (Py.lower s). split; [reflexivity|].
      unfold normalize_game_domain. cbn [py_lower rbind].
      rewrite lower_idem, E. reflexivity.
  - apply canonical_fixed.
  - reflexivity.
  - reflexivity.
  - intros s H. unfold normalize_game_domain. cbn [py_lower rbind].
    rewrite (lookup_mappings_unmapped _ H). reflexivity.
Qed.

Lemma normalize_game_domain_total_idempotent_witness :
  unmapped (Py.lower "Unknown_Game") /\
  normalize_game_domain (JStr "Unknown_Game") = Ok "unknown_game".
Proof.
  assert (H : unmapped (Py.lower "Unknown_Game")).
  { unfold unmapped. apply (bool_decide_unpack _). vm_compute. exact I. }
  split; [exact H|].
  exact (proj2 (proj2 (proj2 (proj2 normalize_game_domain_total_idempotent)))
           "Unknown_Game" H).
Defined.

(** ** LinkResolver *)

Lemma normalize_str (g : string) :
  exists d, normalize_game_domain (JStr g) = Ok d.
Proof.
  unfold normalize_game_domain. cbn [py_lower rbind].
  destruct (lookup_mappings _ _); eauto.
Qed.

Lemma get_nexus_download_url_str (reply : api_reply) (g : string) :
  get_nexus_download_url reply (JStr g) = Ok (request_link reply).
Proof.
  unfold get_nexus_download_url. destruct (normalize_str g) as [d ->].
  reflexivity.
Qed.

(** The error branch never yields a link. *)
Lemma api_error_no_link (r : response) : returned (api_error r) = None.
Proof.
  unfold api_error. destruct (resp_json r) as [j|]; [|reflexivity].
  destruct (py_in "message" j) as [[]|]; try reflexivity.
  destruct j; try reflexivity.
  destruct (_ !! _) as [[]|]; reflexivity.
Qed.

Lemma select_link_not_list (body : json) :
  nonempty_list body = false -> select_link body = NoLinks.
Proof. destruct body as [| | | | |[|]|]; simpl; congruence. Qed.

(** C5. When the JSON body of the reply is not a non-empty list, the
    resolver returns normally with no link, whatever the status and the
    content type; on a successful JSON reply the failure is the "no valid
    download links" one, and this is what the empty array gives. *)
Theorem no_link_without_nonempty_list (r : response) (g : string) :
  (forall body, resp_json r = Some body -> nonempty_list body = false) ->
  exists o,
    get_nexus_download_url (ApiResponse r) (JStr g) = Ok o /\
    returned o = None /\
    (resp_ok r = true ->
     Py.str_in "application/json" (Py.lower (default "" (content_type r))) = true ->
     is_Some (resp_json r) -> o = NoLinks) /\
    get_nexus_download_url (json_reply (JArr [])) (JStr g) = Ok NoLinks.
Proof.
  intros H. exists (request_link (ApiResponse r)).
  rewrite !get_nexus_download_url_str.
  split; [reflexivity|]. split; [|split].
  - unfold request_link. destruct (resp_ok r); simpl.
    + destruct (negb _); [reflexivity|].
      destruct (resp_json r) as [body|]; [|reflexivity].
      rewrite (select_link_not_list body (H body eq_refl)). reflexivity.
    + apply api_error_no_link.
  - intros Hok Hct [body Hb]. unfold request_link.
    rewrite Hok, Hct, Hb. simpl.
    apply select_link_not_list, H. exact Hb.
  - reflexivity.
Qed.

Lemma no_link_without_nonempty_list_witness :
  exists o,
    get_nexus_download_url
      (ApiResponse {| resp_ok := true;
                      content_type := Some "application/json; charset=utf-8";
                      resp_json := Some (JObj ∅) |}) (JStr "SkyrimSE") = Ok o /\
    returned o = None.
Proof.
  destruct (no_link_without_nonempty_list
              {| resp_ok := true;
                 content_type := Some "application/json; charset=utf-8";
                 resp_json := Some (JObj ∅) |} "SkyrimSE") as (o & H1 & H2 & _).
  - intros body [= <-]. reflexivity.
  - exists o. split; assumption.
Defined.

(** What the resolver's loop sees of a candidate. *)
Lemma link_json_has_uri (c : CandidateLink) : dict_has (link_json c) "URI" = true.
Proof.
  unfold dict_has, link_json. apply bool_decide_eq_true_2.
  rewrite lookup_insert_eq. eauto.
Qed.

Lemma link_json_has_name (c : CandidateLink) : dict_has (link_json c) "name" = true.
Proof.
  unfold dict_has, link_json. apply bool_decide_eq_true_2.
  rewrite lookup_insert_ne by discriminate. rewrite lookup_insert_eq. eauto.
Qed.

Lemma link_json_uri (c : CandidateLink) : dict_item (link_json c) "URI" = JStr (uri c).
Proof. unfold dict_item, link_json. rewrite lookup_insert_eq. reflexivity. Qed.

Lemma link_json_name (c : CandidateLink) :
  dict_get (link_json c) "name" = Some (JStr (name c)).
Proof.
  unfold dict_get, link_json.
  rewrite lookup_insert_ne by discriminate. apply lookup_insert_eq.
Qed.

Lemma link_json_short_name (c : CandidateLink) :
  dict_get (link_json c) "short_name" = JStr <$> short_name c.
Proof.
  unfold dict_get, link_json.
  rewrite !lookup_insert_ne by discriminate.
  destruct (short_name c); [apply lookup_singleton_eq | apply lookup_empty].
Qed.

Lemma eqb_bool_decide (a b : string) : String.eqb a b = bool_decide (b = a).
Proof.
  destruct (String.eqb_spec a b); symmetry;
    [apply bool_decide_eq_true_2 | apply bool_decide_eq_false_2]; congruence.
Qed.

Lemma by_name_spec (c : CandidateLink) :
  opt_eq_str (dict_get (link_json c) "short_name") "Direct Download"
  || opt_eq_str (dict_get (link_json c) "name") "Primary Download"
  = by_name c.
Proof.
  rewrite link_json_short_name, link_json_name. unfold by_name.
  f_equal.
  - destruct (short_name c) as [s|];
      cbn [fmap option_fmap option_map opt_eq_str eq_str].
    + rewrite eqb_bool_decide. apply bool_decide_ext. split; congruence.
    + symmetry. apply bool_decide_eq_false_2. discriminate.
  - cbn [opt_eq_str eq_str]. apply eqb_bool_decide.
Qed.

(** The loop returns the first candidate that either test accepts. *)
Lemma preferred_link_find (cs : list CandidateLink) :
  preferred_link (link_json <$> cs) =
  Ok ((fun c => (if by_host c then ByHost else ByName, JStr (uri c)))
        <$> List.find preferred cs).
Proof.
  induction cs as [|c cs IH]; [reflexivity|].
  cbn [fmap list_fmap preferred_link List.find].
  rewrite link_json_has_uri, link_json_has_name, link_json_uri, by_name_spec.
  cbn [andb negb py_in rbind]. unfold preferred at 1. fold (by_host c).
  destruct (by_host c) eqn:Eh; cbn [orb]. { cbn. rewrite Eh. reflexivity. }
  destruct (by_name c). { cbn. rewrite Eh. reflexivity. }
  exact IH.
Qed.

(** C1, as the code has it.  The resolver returns the first candidate,
    in list order, that either has "filedelivery.nexusmods.com" in its
    URI or is matched by short-name "Direct Download" or name "Primary
    Download": a filedelivery candidate wins over a name-matched one only
    when it comes first.  For the three candidates of the example the
    filedelivery URI is returned in the three orders where it precedes
    the "Primary Download" candidate, and the latter's URI in the three
    others. *)
Theorem first_preferred_candidate_is_selected :
  (forall (cs : list CandidateLink) (c : CandidateLink),
      List.find preferred cs = Some c ->
      resolve cs = Ok (Some (JStr (uri c)))) /\
  (forall cs : list CandidateLink,
      cs ≡ₚ [other; mirror; primary] ->
      resolve cs =
      Ok (Some (JStr (if bool_decide (cs ∈ [[other; mirror; primary];
                                            [mirror; other; primary];
                                            [mirror; primary; other]])
                      then uri mirror else uri primary)))).
Proof.
  split.
  - intros cs c H. unfold resolve. rewrite get_nexus_download_url_str.
    destruct cs as [|c0 cs]; [discriminate|].
    unfold request_link, json_reply. cbn [resp_ok content_type resp_json negb].
    replace (Py.str_in _ _) with true by reflexivity.
    cbn [negb fmap list_fmap select_link].
    change (link_json c0 :: (link_json <$> cs))
      with (link_json <$> (c0 :: cs)).
    rewrite preferred_link_find, H. reflexivity.
  - intros cs H. symmetry in H. apply permutations_Permutation in H.
    vm_compute in H.
    repeat (apply elem_of_cons in H as [-> | H];
            [vm_compute; reflexivity|]).
    apply elem_of_nil in H. destruct H.
Qed.

Lemma first_preferred_candidate_is_selected_witness :
  resolve [other; primary; mirror] = Ok (Some (JStr "https://cdn.example/z")).
Proof.
  apply (proj1 first_preferred_candidate_is_selected [other; primary; mirror] primary).
  reflexivity.
Defined.

(** C1, as it is stated, fails: with the "Primary Download" candidate
    ahead of the filedelivery one, the former's URI is returned. *)
Lemma filedelivery_not_always_preferred :
  [primary; other; mirror] ≡ₚ [other; mirror; primary] /\
  by_host mirror = true /\ by_host primary = false /\
  resolve [primary; other; mirror] = Ok (Some (JStr "https://cdn.example/z")) /\
  resolve [primary; other; mirror] <> Ok (Some (JStr (uri mirror))).
Proof.
  split; [|split; [|split; [|split]]].
  - apply (bool_decide_unpack _). vm_compute. exact I.
  - reflexivity.
  - reflexivity.
  - vm_compute. reflexivity.
  - vm_compute. discriminate.
Qed.

(** ** Downloader *)

Lemma stream_to_file_all (chunks : list bytes) (ending : stream_end) (t : transfer) :
  stream_to_file chunks ending None t =
  (match ending with
   | EndOfBody => Ok tt
   | ConnectionBroken => Raise RequestException
   end,
   {| written := written t ++ concat chunks;
      pbar_n := pbar_n t + Z.of_nat (length (concat chunks)) |}).
Proof.
  revert t. induction chunks as [|chunk rest IH]; intros t.
  - simpl. rewrite app_nil_r, Z.add_0_r. destruct t, ending; reflexivity.
  - cbn [stream_to_file]. destruct chunk as [|b chunk].
    + rewrite IH. reflexivity.
    + cbn [fmap option_fmap option_map]. rewrite IH. cbn [written pbar_n concat].
      rewrite <- app_assoc, (length_app (b :: chunk)), Nat2Z.inj_add, Z.add_assoc.
      reflexivity.
Qed.

Lemma path_join_str (dir local_filename : string) :
  exists path, path_join dir (JStr local_filename) = Ok path.
Proof. unfold path_join. destruct (Py.startswith _ _); eauto. Qed.

(** C8. A successful streamed download writes every byte it receives,
    and counts every one of them, whatever length the reply declares: an
    absent header and a header "0" both declare 0, and the file ends up
    holding the whole body. *)
Theorem all_bytes_written_whatever_length_is_declared
    (content_length : option string) (n : Z) (chunks : list bytes)
    (os : syscalls) (local_filename : string) (d : disk) :
  total_size_bytes content_length = Ok n ->
  healthy os ->
  total_size_bytes None = Ok 0 /\
  total_size_bytes (Some "0") = Ok 0 /\
  stream_to_file chunks EndOfBody None no_transfer =
    (Ok tt, {| written := concat chunks;
               pbar_n := Z.of_nat (length (concat chunks)) |}) /\
  exists path,
    path_join DOWNLOAD_DIRECTORY (JStr local_filename) = Ok path /\
    download_file (GetResponse true content_length chunks EndOfBody) os
      (JStr local_filename) d = (Ok true, <[path := concat chunks]> d).
Proof.
  intros Hn (Hmk & Hop & Hwr).
  split; [reflexivity|]. split; [reflexivity|]. split.
  - rewrite stream_to_file_all. reflexivity.
  - destruct (path_join_str DOWNLOAD_DIRECTORY local_filename) as [path Hp].
    exists path. split; [exact Hp|].
    unfold download_file, fetch. rewrite Hmk, Hp, Hn, Hop, Hwr. cbn [negb].
    rewrite stream_to_file_all. reflexivity.
Qed.

Lemma all_bytes_written_whatever_length_is_declared_witness :
  download_file
    (GetResponse true (Some "0") [[Byte.x01; Byte.x02]; []; [Byte.x03]] EndOfBody)
    all_good (JStr "mod.zip") ∅
  = (Ok true, {[ "downloads/mod.zip" := [Byte.x01; Byte.x02; Byte.x03] ]}).
Proof.
  destruct (all_bytes_written_whatever_length_is_declared
              (Some "0") 0 [[Byte.x01; Byte.x02]; []; [Byte.x03]]
              all_good "mod.zip" ∅ eq_refl
              (conj eq_refl (conj eq_refl eq_refl)))
    as (_ & _ & _ & path & Hp & H).
  injection Hp as <-. exact H.
Defined.

(** With a directory that can be created and files that can be removed,
    [download_file] never raises. *)
Lemma download_file_returns (net : http_get) (os : syscalls)
    (local_filename : string) (d : disk) :
  makedirs_fails os = false -> remove_fails os = false ->
  exists (b : bool) (d' : disk),
    download_file net os (JStr local_filename) d = (Ok b, d').
Proof.
  intros Hmk Hrm. unfold download_file. rewrite Hmk.
  destruct (path_join_str DOWNLOAD_DIRECTORY local_filename) as [path ->].
  destruct (fetch net os path d) as [[[]|e] d']; [eauto|].
  unfold handle. rewrite Hrm.
  destruct e; try (eexists _, _; reflexivity).
  destruct (bool_decide _); eexists _, _; reflexivity.
Qed.

(** C3, as the code has it.  When the connection breaks in the middle of
    the body, the partial file is removed and [False] is returned,
    provided the removal succeeds: the file does not exist afterwards.
    A failing removal is not ignored: its error leaves the function, and
    the partial file stays.  Whenever the directory can be created and
    the removal does not fail, the function returns a boolean and raises
    nothing, whatever else goes wrong (a failing write included). *)
Theorem partial_file_removed_when_connection_breaks
    (content_length : option string) (n : Z) (chunks : list bytes)
    (os : syscalls) (local_filename : string) (d : disk) :
  total_size_bytes content_length = Ok n ->
  healthy os ->
  exists path,
    path_join DOWNLOAD_DIRECTORY (JStr local_filename) = Ok path /\
    (remove_fails os = false ->
       download_file (GetResponse true content_length chunks ConnectionBroken)
         os (JStr local_filename) d = (Ok false, delete path d) /\
       delete path d !! path = None) /\
    (remove_fails os = true ->
       download_file (GetResponse true content_length chunks ConnectionBroken)
         os (JStr local_filename) d
       = (Raise OSError, <[path := concat chunks]> d)) /\
    (forall (net : http_get) (os' : syscalls),
       makedirs_fails os' = false -> remove_fails os' = false ->
       exists (b : bool) (d' : disk),
         download_file net os' (JStr local_filename) d = (Ok b, d')).
Proof.
  intros Hn (Hmk & Hop & Hwr).
  destruct (path_join_str DOWNLOAD_DIRECTORY local_filename) as [path Hp].
  exists path. split; [exact Hp|].
  assert (Hf : fetch (GetResponse true content_length chunks ConnectionBroken)
                 os path d
               = (Raise RequestException, <[path := concat chunks]> d)).
  { unfold fetch. rewrite Hn, Hop, Hwr. cbn [negb].
    rewrite stream_to_file_all. reflexivity. }
  split; [|split].
  - intros Hrm. split.
    + unfold download_file. rewrite Hmk, Hp, Hf. unfold handle.
      rewrite lookup_insert_eq, Hrm.
      rewrite bool_decide_eq_true_2 by eauto.
      rewrite delete_insert_eq. reflexivity.
    + apply lookup_delete_eq.
  - intros Hrm. unfold download_file. rewrite Hmk, Hp, Hf. unfold handle.
    rewrite lookup_insert_eq, Hrm.
    rewrite bool_decide_eq_true_2 by eauto. reflexivity.
  - intros net os'. apply download_file_returns.
Qed.

Lemma partial_file_removed_when_connection_breaks_witness :
  download_file broken_reply all_good (JStr "mod.zip") ∅ = (Ok false, ∅).
Proof.
  destruct (partial_file_removed_when_connection_breaks
              (Some "4") 4 [[Byte.x01; Byte.x02]] all_good "mod.zip" ∅ eq_refl
              (conj eq_refl (conj eq_refl eq_refl)))
    as (path & Hp & Hok & _).
  injection Hp as <-. destruct (Hok eq_refl) as [H _]. exact H.
Defined.

(** C3, as it is stated, fails.  When the connection breaks and the
    removal of the partial file fails, the error of the removal leaves
    [download_file] and the partial file is still there; and when a write
    to the file fails, [False] is returned but the partial file is not
    removed. *)
Lemma partial_file_can_survive :
  download_file broken_reply remove_denied (JStr "mod.zip") ∅
  = (Raise OSError, {[ "downloads/mod.zip" := [Byte.x01; Byte.x02] ]}) /\
  download_file two_chunks disk_full_after_one (JStr "mod.zip") ∅
  = (Ok false, {[ "downloads/mod.zip" := [Byte.x01; Byte.x02] ]}).
Proof. split; vm_compute; reflexivity. Qed.

(** ** ManifestExtractor *)

(** The validation of the code, a truth-value test, accepts exactly the
    values that are present and non-empty. *)
Lemma empty_value_truthy (v : json) : empty_value v = negb (truthy v).
Proof.
  destruct v as [|b|n|f|s|l|m]; cbn [empty_value truthy]; try reflexivity.
  - rewrite negb_involutive. destruct (Z.eqb_spec n 0) as [->|Hne].
    + reflexivity.
    + apply bool_decide_eq_false_2. exact Hne.
  - destruct f; reflexivity.
  - destruct s; reflexivity.
  - destruct l; reflexivity.
  - rewrite negb_involutive. reflexivity.
Qed.

Lemma present_nonempty_truthy (v : option json) : present_nonempty v = truthy_opt v.
Proof.
  destruct v as [x|]; [|reflexivity]. cbn [present_nonempty truthy_opt].
  rewrite empty_value_truthy. apply negb_involutive.
Qed.

(** On a well-shaped entry nothing raises before the filter, and the
    validation is [qualifies]. *)
Lemma extract_archive_shaped (fl : option string) (archive : json) :
  well_shaped archive = true ->
  extract_archive fl archive =
  if qualifies archive then
    keep <- passes_filter fl (default JNull (display_name archive))
              (default JNull (field archive "GameName")) ;;;
    Ok (if keep then Some (request_of archive) else None)
  else Ok None.
Proof.
  intros Hs. destruct archive as [| | | | | |a]; try discriminate.
  unfold extract_archive, qualifies. rewrite !present_nonempty_truthy.
  unfold is_nexus, request_of, field, state_of, display_name, dict_get.
  cbn [well_shaped py_get rbind] in *.
  destruct (a !! "State") as [[| | | | | |st]|]; try discriminate;
    cbn [default from_option id py_get rbind].
  - destruct (st !! "$type") as [[| | | |t| |]|]; try discriminate;
      cbn [default from_option id py_in rbind andb].
    + destruct (Py.str_in "NexusDownloader" t); cbn [andb]; [|reflexivity].
      destruct (truthy_opt (st !! "ModID")); cbn [andb negb]; [|reflexivity].
      destruct (truthy_opt (st !! "FileID")); cbn [andb negb]; [|reflexivity].
      destruct (truthy_opt (st !! "GameName")); cbn [andb negb]; [|reflexivity].
      destruct (truthy_opt (a !! "Name")); cbn [andb negb]; [|reflexivity].
      destruct (passes_filter _ _ _) as [[]|]; reflexivity.
    + reflexivity.
  - rewrite lookup_empty. reflexivity.
Qed.

Lemma parse_manifest_of (others : gmap string json) (archives : list json)
    (filter_string : option string) :
  parse_wabbajack_json (ReadJson (manifest_of others archives)) filter_string
  = extract_archives (filter_lower_of filter_string) archives.
Proof.
  unfold parse_wabbajack_json, manifest_of. cbn [py_get rbind].
  rewrite lookup_insert_eq. reflexivity.
Qed.

Lemma extract_archives_cons_none (fl : option string) (a : json) (rest : list json) :
  extract_archive fl a = Ok None ->
  extract_archives fl (a :: rest) = extract_archives fl rest.
Proof.
  intros H. cbn [extract_archives]. rewrite H. cbn [rbind].
  destruct (extract_archives fl rest); reflexivity.
Qed.

Lemma extract_archives_drop (fl : option string) (pre : list json) (a : json)
    (post : list json) :
  extract_archive fl a = Ok None ->
  extract_archives fl (pre ++ a :: post) = extract_archives fl (pre ++ post).
Proof.
  intros H. induction pre as [|b pre IH]; cbn [app].
  - apply extract_archives_cons_none, H.
  - cbn [extract_archives]. rewrite IH. reflexivity.
Qed.

(** Without a filter the loop is a filter-and-map over the entries. *)
Lemma extract_archives_no_filter (archives : list json) :
  Forall (fun a => well_shaped a = true) archives ->
  extract_archives None archives
  = Ok (request_of <$> List.filter qualifies archives).
Proof.
  induction 1 as [|a rest Ha _ IH]; [reflexivity|].
  cbn [extract_archives List.filter]. rewrite IH, (extract_archive_shaped _ _ Ha).
  destruct (qualifies a); reflexivity.
Qed.

Lemma str_truthy_lower (f : string) : Py.str_truthy (Py.lower f) = Py.str_truthy f.
Proof. destruct f; reflexivity. Qed.

Lemma passes_filter_strings (f n g : string) :
  passes_filter (filter_lower_of (Some f)) (JStr n) (JStr g)
  = Ok (Py.str_in (Py.lower f) (Py.lower n) || Py.str_in (Py.lower f) (Py.lower g)).
Proof.
  unfold filter_lower_of, passes_filter. destruct (Py.str_truthy f) eqn:E.
  - rewrite str_truthy_lower, E. cbn [py_lower rbind].
    destruct (Py.str_in (Py.lower f) (Py.lower n)); reflexivity.
  - destruct f; [|discriminate]. cbn [Py.lower]. rewrite str_in_empty. reflexivity.
Qed.

(** With a filter, and names that are strings, the loop also applies
    [matches]. *)
Lemma extract_archives_filter (f : string) (archives : list json) :
  Forall (fun a => well_shaped a = true) archives ->
  Forall (fun a => names_are_strings a = true) archives ->
  extract_archives (filter_lower_of (Some f)) archives
  = Ok (request_of <$>
          List.filter (fun a => qualifies a && matches f a) archives).
Proof.
  induction 1 as [|a rest Ha _ IH]; [reflexivity|].
  intros Hn. apply Forall_cons in Hn as [Hn Hrest].
  cbn [extract_archives List.filter].
  rewrite (IH Hrest), (extract_archive_shaped _ _ Ha).
  unfold names_are_strings in Hn. unfold matches.
  destruct (qualifies a); cbn [negb orb andb] in *; [|reflexivity].
  destruct (display_name a) as [[| | | |n| |]|]; try discriminate.
  destruct (field a "GameName") as [[| | | |g| |]|]; try discriminate.
  cbn [default from_option id]. rewrite passes_filter_strings. cbn [rbind].
  destruct (_ || _); reflexivity.
Qed.

Lemma qualifies_complete (a : json) :
  qualifies a = true -> complete (request_of a) = true.
Proof.
  unfold qualifies, complete, request_of.
  cbn [game_domain mod_id file_id filename].
  rewrite !andb_true_iff. intros ((((_ & Hm) & Hf) & Hg) & Hn).
  destruct (field a "ModID"), (field a "FileID"), (field a "GameName"),
    (display_name a); try discriminate.
  cbn [default from_option id present_nonempty] in *. auto.
Qed.

Lemma missing_field_not_qualifies (a : json) : missing_field a -> qualifies a = false.
Proof.
  unfold missing_field, qualifies.
  intros [H | [H | [H | H]]]; rewrite H; cbn [present_nonempty];
    rewrite ?andb_false_r; reflexivity.
Qed.

Lemma zero_or_empty_not_qualifies (a : json) :
  zero_or_empty_field a -> qualifies a = false.
Proof.
  unfold zero_or_empty_field, qualifies.
  intros [H | [H | [H | H]]]; rewrite H; cbn [present_nonempty empty_value negb];
    rewrite ?andb_false_r; reflexivity.
Qed.

Lemma is_nexus_well_shaped (a : json) : is_nexus a = true -> well_shaped a = true.
Proof.
  unfold is_nexus, field, state_of, dict_get, well_shaped.
  destruct a as [| | | | | |m]; cbn [default from_option id];
    try (rewrite lookup_empty; discriminate).
  destruct (m !! "State") as [[| | | | | |st]|]; cbn [default from_option id];
    try (rewrite ?lookup_empty; discriminate).
  destruct (st !! "$type") as [[]|]; congruence.
Qed.

(** C2.  For a manifest whose entries have the contract's shape, the
    extractor without a filter returns the requests of the qualifying
    entries (Nexus entries with the four fields present and non-empty, in
    the sense of [present_nonempty]), in manifest order and with
    duplicates: their number is the number K of qualifying entries, every
    request is complete, and a Nexus entry that lacks one of the four
    fields changes nothing in the output. *)
Theorem extraction_keeps_qualifying_entries_in_order
    (others : gmap string json) (archives : list json) :
  Forall (fun a => well_shaped a = true) archives ->
  let out := request_of <$> List.filter qualifies archives in
  parse_wabbajack_json (ReadJson (manifest_of others archives)) None = Ok out /\
  length out = length (List.filter qualifies archives) /\
  Forall (fun r => complete r = true) out /\
  (forall (pre : list json) (a : json) (post : list json),
      archives = (pre ++ a :: post)%list -> is_nexus a = true -> missing_field a ->
      parse_wabbajack_json (ReadJson (manifest_of others (pre ++ post)%list)) None
      = Ok out).
Proof.
  intros Hs out. split; [|split; [|split]].
  - rewrite parse_manifest_of. apply extract_archives_no_filter, Hs.
  - unfold out. apply length_fmap.
  - unfold out. apply Forall_fmap, Forall_forall.
    intros a Ha. apply list_elem_of_In, filter_In in Ha as [_ Hq].
    apply qualifies_complete, Hq.
  - intros pre a post -> Hnx Hmiss.
    rewrite parse_manifest_of. cbn [filter_lower_of].
    rewrite <- (extract_archives_drop None pre a post).
    + apply extract_archives_no_filter, Hs.
    + rewrite (extract_archive_shaped _ _ (is_nexus_well_shaped _ Hnx)).
      rewrite (missing_field_not_qualifies _ Hmiss). reflexivity.
Qed.

Lemma sample_archives_well_shaped :
  Forall (fun a => well_shaped a = true) sample_archives.
Proof. repeat constructor. Qed.

Lemma sample_archives_names :
  Forall (fun a => names_are_strings a = true) sample_archives.
Proof. repeat constructor. Qed.

Lemma extraction_keeps_qualifying_entries_in_order_witness :
  parse_wabbajack_json (ReadJson (manifest_of ∅ sample_archives)) None
  = Ok [skyui_request; skyui_request].
Proof.
  exact (proj1 (extraction_keeps_qualifying_entries_in_order
                  ∅ sample_archives sample_archives_well_shaped)).
Defined.

(** C7.  With a filter substring, and entries whose names are strings, a
    qualifying entry is kept exactly when the substring occurs, case
    ignored, in its display name or in its game name as the manifest
    spells it; a substring that occurs in no entry leaves nothing. *)
Theorem filter_keeps_entries_matching_name_or_game
    (others : gmap string json) (archives : list json) (f : string) :
  Forall (fun a => well_shaped a = true) archives ->
  Forall (fun a => names_are_strings a = true) archives ->
  parse_wabbajack_json (ReadJson (manifest_of others archives)) (Some f)
  = Ok (request_of <$>
          List.filter (fun a => qualifies a && matches f a) archives) /\
  ((forall a : json, a ∈ archives -> matches f a = false) ->
   parse_wabbajack_json (ReadJson (manifest_of others archives)) (Some f) = Ok []).
Proof.
  intros Hs Hn.
  assert (H := extract_archives_filter f archives Hs Hn).
  rewrite parse_manifest_of. split; [exact H|].
  intros Hno. rewrite H. f_equal.
  replace (List.filter _ archives) with (@nil json); [reflexivity|].
  symmetry. clear -Hno. induction archives as [|a rest IH]; [reflexivity|].
  cbn [List.filter]. rewrite (Hno a) by left. rewrite andb_false_r.
  apply IH. intros b Hb. apply Hno. right. exact Hb.
Qed.

Lemma filter_keeps_entries_matching_name_or_game_witness :
  parse_wabbajack_json (ReadJson (manifest_of ∅ sample_archives)) (Some "SKYRIM")
  = Ok [skyui_request; skyui_request] /\
  parse_wabbajack_json (ReadJson (manifest_of ∅ [skyui; http_entry])) (Some "oblivion")
  = Ok [].
Proof.
  split.
  - exact (proj1 (filter_keeps_entries_matching_name_or_game
                    ∅ sample_archives "SKYRIM"
                    sample_archives_well_shaped sample_archives_names)).
  - apply (proj2 (filter_keeps_entries_matching_name_or_game
                    ∅ [skyui; http_entry] "oblivion"
                    ltac:(repeat constructor) ltac:(repeat constructor))).
    intros a Ha.
    repeat (apply elem_of_cons in Ha as [-> | Ha]; [reflexivity|]).
    apply elem_of_nil in Ha. destruct Ha.
Defined.

(** C9.  The validation is by truth value: a Nexus entry in which "ModID"
    or "FileID" is present but 0, or "GameName" or "Name" is present but
    the empty string, yields no request, with or without a filter: alone
    it gives the empty list, and among other entries the result is the
    one the manifest gives without it. *)
Theorem zero_or_empty_field_drops_entry
    (others : gmap string json) (filter_string : option string)
    (pre : list json) (a : json) (post : list json) :
  is_nexus a = true ->
  zero_or_empty_field a ->
  extract_archive (filter_lower_of filter_string) a = Ok None /\
  parse_wabbajack_json (ReadJson (manifest_of others [a])) filter_string = Ok [] /\
  parse_wabbajack_json (ReadJson (manifest_of others (pre ++ a :: post)%list))
    filter_string
  = parse_wabbajack_json (ReadJson (manifest_of others (pre ++ post)%list))
      filter_string.
Proof.
  intros Hnx Hz.
  assert (H : extract_archive (filter_lower_of filter_string) a = Ok None).
  { rewrite (extract_archive_shaped _ _ (is_nexus_well_shaped _ Hnx)).
    rewrite (zero_or_empty_not_qualifies _ Hz). reflexivity. }
  split; [exact H|]. rewrite !parse_manifest_of. split.
  - rewrite (extract_archives_cons_none _ _ _ H). reflexivity.
  - apply extract_archives_drop, H.
Qed.

Lemma zero_or_empty_field_drops_entry_witness :
  parse_wabbajack_json (ReadJson (manifest_of ∅ [skyui; zero_mod_id; skyui])) None
  = Ok [skyui_request; skyui_request].
Proof.
  rewrite (proj2 (proj2 (zero_or_empty_field_drops_entry
                           ∅ None [skyui] zero_mod_id [skyui]
                           eq_refl (or_introl eq_refl)))).
  reflexivity.
Defined.

(** ** Orchestrator *)

Lemma prompts_record_asked (s : state) : prompts (record Asked s) = S (prompts s).
Proof.
  unfold prompts, record. cbn [log]. rewrite List.filter_app, length_app.
  cbn. lia.
Qed.

Lemma prompts_attempt (w : world) (item : downloadable) (s : state) :
  prompts (attempt w item s).2 = prompts s.
Proof.
  unfold attempt, prompts.
  destruct (get_nexus_download_url _ _) as [o|e]; [|reflexivity].
  destruct (truthy_opt (returned o)).
  - destruct (download_file _ _ _ _) as [[b|e] d]; cbn [snd log];
      rewrite ?List.filter_app, ?length_app; cbn; lia.
  - cbn [snd log]. rewrite List.filter_app, length_app. cbn. lia.
Qed.

Lemma prompts_attempt_each (w : world) (items : list downloadable) (s : state) :
  prompts (attempt_each w items s).2 = prompts s.
Proof.
  revert s. induction items as [|item rest IH]; intros s; [reflexivity|].
  cbn [attempt_each]. pose proof (prompts_attempt w item s) as H.
  destruct (attempt w item s) as [[[]|e] s1]; cbn [snd] in *.
  - rewrite IH. exact H.
  - exact H.
Qed.

Lemma attempts_attempt (w : world) (item : downloadable) (s : state) :
  attempts (attempt w item s).2 = S (attempts s).
Proof.
  unfold attempt.
  destruct (get_nexus_download_url _ _) as [o|e]; [|reflexivity].
  destruct (truthy_opt (returned o)); [|reflexivity].
  destruct (download_file _ _ _ _) as [[b|e] d]; reflexivity.
Qed.

(** When no attempt raises, every selected item is attempted. *)
Lemma attempts_attempt_each (w : world) (items : list downloadable) (s : state) :
  (attempt_each w items s).1 = Ok tt ->
  attempts (attempt_each w items s).2 = (attempts s + length items)%nat.
Proof.
  revert s. induction items as [|item rest IH]; intros s; cbn [attempt_each length].
  - intros _. cbn. lia.
  - pose proof (attempts_attempt w item s) as H.
    destruct (attempt w item s) as [[[]|e] s1]; cbn [fst snd] in *.
    + intros Hok. rewrite (IH s1 Hok). lia.
    + discriminate.
Qed.

(** The loop only ever ends the script or spins. *)
Lemma selection_loop_ending (w : world) (ds : list downloadable)
    (lines : list string) (s : state) :
  (selection_loop w ds lines s).1 = EndOfScript \/
  (selection_loop w ds lines s).1 = Diverges.
Proof.
  revert s. induction lines as [|line rest IH]; intros s; [right; reflexivity|].
  cbn [selection_loop].
  destruct (String.eqb _ "q"); [left; reflexivity|].
  destruct (String.eqb _ "all"); [apply IH|].
  destruct (Py.int_of_str _) as [k|]; [|apply IH].
  destruct (_ && _); [|apply IH].
  destruct (ds !! _) as [item|]; [|apply IH].
  destruct (attempt_each w [item] (record Asked s)) as [[[]|e] s1];
    [left; reflexivity | apply IH].
Qed.

(** If the loop ends the script, it does so at a line that is the quit
    token or the number of a listed item, after one prompt per line read
    up to that one. *)
Lemma selection_loop_ends_at (w : world) (ds : list downloadable)
    (lines : list string) (s s' : state) :
  selection_loop w ds lines s = (EndOfScript, s') ->
  exists (pre : list string) (line : string) (post : list string),
    lines = (pre ++ line :: post)%list /\
    ends_selection ds line /\
    prompts s' = (prompts s + length pre + 1)%nat.
Proof.
  revert s. induction lines as [|line rest IH]; intros s; [discriminate|].
  cbn [selection_loop]. fold (selection_of line).
  assert (Hrec : forall s1, prompts s1 = S (prompts s) ->
            selection_loop w ds rest s1 = (EndOfScript, s') ->
            exists pre l post, line :: rest = (pre ++ l :: post)%list /\
              ends_selection ds l /\
              prompts s' = (prompts s + length pre + 1)%nat).
  { intros s1 Hp H. destruct (IH s1 H) as (pre & l & post & -> & He & Hn).
    exists (line :: pre), l, post. split; [reflexivity|]. split; [exact He|].
    cbn [length]. lia. }
  assert (Hrec0 := Hrec (record Asked s) (prompts_record_asked s)).
  destruct (String.eqb_spec (selection_of line) "q") as [Hq|_].
  { intros [= <-]. exists [], line, rest. split; [reflexivity|].
    split; [left; exact Hq|]. rewrite prompts_record_asked. cbn. lia. }
  destruct (String.eqb (selection_of line) "all").
  { apply Hrec. rewrite prompts_attempt_each. apply prompts_record_asked. }
  destruct (Py.int_of_str (selection_of line)) as [k|] eqn:Ek; [|exact Hrec0].
  destruct (_ && _) eqn:Eb; [|exact Hrec0].
  destruct (ds !! _) as [item|]; [|exact Hrec0].
  pose proof (prompts_attempt_each w [item] (record Asked s)) as Hp.
  destruct (attempt_each w [item] (record Asked s)) as [[[]|e] s1];
    cbn [snd] in Hp.
  - intros [= <-]. exists [], line, rest. split; [reflexivity|]. split.
    + right. exists k. split; [exact Ek|].
      apply andb_true_iff in Eb as [H1 H2].
      apply Z.leb_le in H1. apply Z.ltb_lt in H2. lia.
    + rewrite Hp, prompts_record_asked. cbn. lia.
  - apply Hrec. rewrite Hp. apply prompts_record_asked.
Qed.

Lemma selection_loop_prompts_le (w : world) (ds : list downloadable)
    (lines : list string) (s : state) :
  (prompts s <= prompts (selection_loop w ds lines s).2)%nat.
Proof.
  revert s. induction lines as [|line rest IH]; intros s; [reflexivity|].
  cbn [selection_loop].
  assert (Hrec : forall s1, prompts s1 = S (prompts s) ->
            (prompts s <= prompts (selection_loop w ds rest s1).2)%nat).
  { intros s1 H. specialize (IH s1). lia. }
  assert (Hrec0 := Hrec (record Asked s) (prompts_record_asked s)).
  destruct (String.eqb _ "q"). { cbn [snd]. rewrite prompts_record_asked. lia. }
  destruct (String.eqb _ "all").
  { apply Hrec. rewrite prompts_attempt_each. apply prompts_record_asked. }
  destruct (Py.int_of_str _) as [k|]; [|exact Hrec0].
  destruct (_ && _); [|exact Hrec0].
  destruct (ds !! _) as [item|]; [|exact Hrec0].
  pose proof (prompts_attempt_each w [item] (record Asked s)) as Hp.
  destruct (attempt_each w [item] (record Asked s)) as [[[]|e] s1];
    cbn [snd] in *.
  - rewrite Hp, prompts_record_asked. lia.
  - apply Hrec. rewrite Hp. apply prompts_record_asked.
Qed.

(** C10.  In manifest mode the selection "all" attempts the candidates
    and then goes back to the prompt: the loop carries on with the next
    line, with no further line it never ends, and with a further line a
    second prompt is recorded.  The loop ends the run only at a line that
    is the quit token or the number of a listed item, right after the
    prompt that read it; it has no other way out. *)
Theorem all_selection_returns_to_prompt (w : world) (ds : list downloadable) :
  (forall (line : string) (rest : list string) (s : state),
      selection_of line = "all" ->
      let after := (attempt_each w ds (record Asked s)).2 in
      selection_loop w ds (line :: rest) s = selection_loop w ds rest after /\
      selection_loop w ds [line] s = (Diverges, after) /\
      ((attempt_each w ds (record Asked s)).1 = Ok tt ->
       attempts after = (attempts s + length ds)%nat) /\
      (rest <> [] ->
       (prompts s + 2 <= prompts (selection_loop w ds (line :: rest) s).2)%nat)) /\
  (forall (lines : list string) (s s' : state),
      selection_loop w ds lines s = (EndOfScript, s') ->
      exists (pre : list string) (line : string) (post : list string),
        lines = (pre ++ line :: post)%list /\
        ends_selection ds line /\
        selection_of line <> "all" /\
        prompts s' = (prompts s + length pre + 1)%nat) /\
  (forall (lines : list string) (s : state),
      (selection_loop w ds lines s).1 = EndOfScript \/
      (selection_loop w ds lines s).1 = Diverges).
Proof.
  split; [|split].
  - intros line rest s Hall after.
    assert (Hstep : forall rest',
              selection_loop w ds (line :: rest') s
              = selection_loop w ds rest' after).
    { intros rest'. cbn [selection_loop]. fold (selection_of line).
      rewrite Hall. reflexivity. }
    split; [apply Hstep|]. split; [rewrite Hstep; reflexivity|]. split.
    + intros Hok. unfold after. rewrite (attempts_attempt_each _ _ _ Hok).
      reflexivity.
    + intros Hne. rewrite Hstep. destruct rest as [|next rest']; [congruence|].
      assert (Hafter : prompts after = S (prompts s)).
      { unfold after. rewrite prompts_attempt_each. apply prompts_record_asked. }
      assert (Hnext : (S (prompts after)
                       <= prompts (selection_loop w ds (next :: rest') after).2)%nat).
      { clear. generalize after. intros s0.
        pose proof (selection_loop_prompts_le w ds rest') as Hle.
        cbn [selection_loop].
        assert (Hrec : forall s1, prompts s1 = S (prompts s0) ->
                  (S (prompts s0) <= prompts (selection_loop w ds rest' s1).2)%nat).
        { intros s1 H. specialize (Hle s1). lia. }
        assert (Hrec0 := Hrec (record Asked s0) (prompts_record_asked s0)).
        destruct (String.eqb _ "q"). { cbn [snd]. rewrite prompts_record_asked. lia. }
        destruct (String.eqb _ "all").
        { apply Hrec. rewrite prompts_attempt_each. apply prompts_record_asked. }
        destruct (Py.int_of_str _) as [k|]; [|exact Hrec0].
        destruct (_ && _); [|exact Hrec0].
        destruct (ds !! _) as [item|]; [|exact Hrec0].
        pose proof (prompts_attempt_each w [item] (record Asked s0)) as Hp.
        destruct (attempt_each w [item] (record Asked s0)) as [[[]|e] s1];
          cbn [snd] in *.
        - rewrite Hp, prompts_record_asked. lia.
        - apply Hrec. rewrite Hp. apply prompts_record_asked. }
      lia.
  - intros lines s s' H.
    destruct (selection_loop_ends_at w ds lines s s' H)
      as (pre & line & post & -> & He & Hn).
    exists pre, line, post. split; [reflexivity|]. split; [exact He|].
    split; [|exact Hn].
    intros Hall. destruct He as [Hq | (k & Hk & _)].
    + rewrite Hall in Hq. discriminate.
    + rewrite Hall in Hk. discriminate.
  - apply selection_loop_ending.
Qed.

Lemma all_selection_returns_to_prompt_witness :
  (selection_loop offline [skyui_request] ["  All "]
     {| files := ∅; attempts := 0; log := [] |}).1 = Diverges.
Proof.
  rewrite (proj1 (proj2 (proj1 (all_selection_returns_to_prompt
                                  offline [skyui_request])
                           "  All " [] {| files := ∅; attempts := 0; log := [] |}
                           eq_refl))).
  reflexivity.
Defined.

(** The manual mode exits with status 1 exactly on a malformed
    identifier; otherwise it ends the script or lets an exception out. *)
Lemma manual_mode_exit_one (w : world) (lines : list string) (s : state) :
  (manual_mode w lines s).1 = SystemExit (ExitCode 1) <->
  manual_ids_malformed lines.
Proof.
  unfold manual_mode, manual_ids_malformed.
  destruct lines as [|l1 [|l2 [|l3 [|l4 more]]]]; cbn [fst];
    try (split; [discriminate | intros (? & ? & ? & ? & ? & [=] & _)]).
  destruct (Py.int_of_str (Py.strip l2)) as [m|] eqn:E2.
  - destruct (Py.int_of_str (Py.strip l3)) as [f|] eqn:E3.
    + split.
      * destruct (attempt _ _ _) as [[[]|e] s1]; discriminate.
      * intros (? & ? & ? & ? & ? & [= <- <- <- <- <-] & [H | H]); congruence.
    + split; [|reflexivity]. intros _.
      exists l1, l2, l3, l4, more. split; [reflexivity | right; exact E3].
  - split; [|reflexivity]. intros _.
    exists l1, l2, l3, l4, more. split; [reflexivity | left; exact E2].
Qed.

Lemma manual_mode_ending (w : world) (lines : list string) (s : state) :
  (manual_mode w lines s).1 = EndOfScript \/
  (manual_mode w lines s).1 = SystemExit (ExitCode 1) \/
  exists e, (manual_mode w lines s).1 = Uncaught e.
Proof.
  unfold manual_mode.
  destruct lines as [|l1 [|l2 [|l3 [|l4 more]]]]; cbn [fst]; eauto.
  destruct (Py.int_of_str (Py.strip l2)); [|auto].
  destruct (Py.int_of_str (Py.strip l3)); [|auto].
  destruct (attempt _ _ _) as [[[]|e] s1]; cbn [fst]; eauto.
Qed.

(** C4, as the code has it.  A missing or empty key makes the script
    call [exit] with a message, which gives status 1; the manifest mode
    with nothing to download exits with status 0; [exit(1)] is reached
    exactly in manual mode with a malformed Mod ID or File ID.  Status 1
    comes from these two exits and from an exception that reaches the top
    level, and from nothing else; status 0 comes from the end of the
    script and from the "nothing to do" exit. *)
Theorem exit_status_of_main (a : args) (env : environment) :
  let t := (main a env).1 in
  (load_api_key (key_file env) = None ->
   t = SystemExit (ExitMessage no_key_message) /\ exit_status t = Some 1) /\
  (is_Some (load_api_key (key_file env)) ->
   manifest_mode_chosen a = true ->
   parse_wabbajack_json (manifest env) (arg_filter a) = Ok [] ->
   t = SystemExit (ExitCode 0) /\ exit_status t = Some 0) /\
  (t = SystemExit (ExitCode 1) <->
   is_Some (load_api_key (key_file env)) /\
   manifest_mode_chosen a = false /\
   manual_ids_malformed (stdin env)) /\
  (exit_status t = Some 1 <->
   load_api_key (key_file env) = None \/
   t = SystemExit (ExitCode 1) \/
   exists e, t = Uncaught e) /\
  (exit_status t = Some 0 <->
   t = EndOfScript \/ t = SystemExit (ExitCode 0)).
Proof.
  intros t. subst t. unfold main.
  destruct (load_api_key (key_file env)) as [api_key|].
  2:{ cbn [fst exit_status].
      split; [auto|]. split; [intros [? [=]]|].
      split; [split; [discriminate | intros [[? [=]] _]]|].
      split; [split; auto|].
      split; [discriminate | intros [|]; discriminate]. }
  destruct (manifest_mode_chosen a).
  - set (s0 := {| files := disk0 env; attempts := 0; log := [] |}).
    destruct (parse_wabbajack_json _ _) as [[|d ds]|e]; cbn [fst exit_status].
    + split; [discriminate|]. split; [auto|].
      split; [split; [discriminate | intros (_ & [=] & _)]|].
      split; [split; [discriminate | intros [|[|[? ?]]]; discriminate]|].
      split; auto.
    + pose proof (selection_loop_ending (outside env) (d :: ds) (stdin env) s0)
        as [H | H]; rewrite H; cbn [exit_status].
      * split; [discriminate|]. split; [discriminate|].
        split; [split; [discriminate | intros (_ & [=] & _)]|].
        split; [split; [discriminate | intros [|[|[? ?]]]; discriminate]|].
        split; auto.
      * split; [discriminate|]. split; [discriminate|].
        split; [split; [discriminate | intros (_ & [=] & _)]|].
        split; [split; [discriminate | intros [|[|[? ?]]]; discriminate]|].
        split; [discriminate | intros [|]; discriminate].
    + split; [discriminate|]. split; [discriminate|].
      split; [split; [discriminate | intros (_ & [=] & _)]|].
      split; [split; eauto|].
      split; [discriminate | intros [|]; discriminate].
  - set (s0 := {| files := disk0 env; attempts := 0; log := [] |}).
    pose proof (manual_mode_exit_one (outside env) (stdin env) s0) as Hone.
    split; [discriminate|]. split; [discriminate|].
    split.
    { rewrite Hone. split; [intros H; split; [eauto | auto] | intros (_ & _ & H); exact H]. }
    destruct (manual_mode_ending (outside env) (stdin env) s0) as [H | [H | [e H]]];
      rewrite H; cbn [exit_status].
    + split; [split; [discriminate | intros [|[|[? ?]]]; discriminate]|].
      split; auto.
    + split; [split; auto|].
      split; [discriminate | intros [|]; discriminate].
    + split; [split; eauto|].
      split; [discriminate | intros [|]; discriminate].
Qed.

Lemma exit_status_of_main_witness :
  exit_status (main manual_args (sample_env ["skyrimse"; "12x"; "5"; "a.zip"])).1
  = Some 1 /\
  exit_status (main manifest_args (sample_env ["q"])).1 = Some 0.
Proof.
  split.
  - apply (proj1 (proj2 (proj2 (proj2
             (exit_status_of_main manual_args
                (sample_env ["skyrimse"; "12x"; "5"; "a.zip"])))))).
    right. left. vm_compute. reflexivity.
  - apply (proj2 (proj2 (proj2 (proj2
             (exit_status_of_main manifest_args (sample_env ["q"])))))).
    left. vm_compute. reflexivity.
Defined.

(** C4, as it is stated, fails: without a key file the script leaves
    with status 1, not 0, although no identifier was even read. *)
Lemma missing_key_exits_with_status_one :
  load_api_key (key_file no_key_env) = None /\
  (main manual_args no_key_env).1 = SystemExit (ExitMessage no_key_message) /\
  exit_status (main manual_args no_key_env).1 = Some 1 /\
  exit_status (main manual_args no_key_env).1 <> Some 0 /\
  ~ manual_ids_malformed (stdin no_key_env).
Proof.
  split; [reflexivity|]. split; [reflexivity|]. split; [reflexivity|].
  split; [discriminate|].
  intros (? & ? & ? & ? & ? & [=] & _).
Qed.

(** * Further properties of the code *)

(** ** load_api_key *)

Lemma lstrip_idem (s : string) : Py.lstrip (Py.lstrip s) = Py.lstrip s.
Proof.
  induction s as [|c t IH]; [reflexivity|].
  cbn [Py.lstrip]. destruct (Py.is_space c) eqn:E; [exact IH|].
  cbn [Py.lstrip]. rewrite E. reflexivity.
Qed.

Lemma rstrip_idem (s : string) : Py.rstrip (Py.rstrip s) = Py.rstrip s.
Proof.
  induction s as [|c t IH]; [reflexivity|].
  cbn [Py.rstrip]. destruct (Py.rstrip t) as [|d r] eqn:E.
  - destruct (Py.is_space c) eqn:Ec; [reflexivity|].
    cbn [Py.rstrip]. rewrite Ec. reflexivity.
  - cbn [Py.rstrip] in *. rewrite IH. reflexivity.
Qed.

(** What [lstrip] leaves does not start with white space, and [rstrip]
    keeps such a first character. *)
Lemma lstrip_head (s : string) :
  Py.lstrip s = "" \/
  exists c t, Py.lstrip s = String c t /\ Py.is_space c = false.
Proof.
  induction s as [|c t IH]; [left; reflexivity|].
  cbn [Py.lstrip]. destruct (Py.is_space c) eqn:E; [exact IH|].
  right. eauto.
Qed.

Lemma rstrip_keeps_head (c : ascii) (t : string) :
  Py.is_space c = false -> exists t', Py.rstrip (String c t) = String c t'.
Proof.
  intros E. cbn [Py.rstrip]. destruct (Py.rstrip t); [rewrite E|]; eauto.
Qed.

Lemma strip_idem (s : string) : Py.strip (Py.strip s) = Py.strip s.
Proof.
  unfold Py.strip.
  assert (H : Py.lstrip (Py.rstrip (Py.lstrip s)) = Py.rstrip (Py.lstrip s)).
  { destruct (lstrip_head s) as [-> | (c & t & -> & E)]; [reflexivity|].
    destruct (rstrip_keeps_head c t E) as [t' ->].
    cbn [Py.lstrip]. rewrite E. reflexivity. }
  rewrite H. apply rstrip_idem.
Qed.

(** X1.  A key that [load_api_key] returns is the stripped text of the
    key file: it is never empty and has no white space left at either
    end.  No key is returned exactly when the file is missing,
    unreadable, or holds nothing but white space. *)
Theorem load_api_key_stripped_nonempty (file : key_read) :
  (forall api_key : string,
      load_api_key file = Some api_key ->
      (exists s, file = KeyText s /\ api_key = Py.strip s) /\
      api_key <> "" /\
      Py.strip api_key = api_key) /\
  (load_api_key file = None <->
   file = KeyNotFound \/ file = KeyUnreadable \/
   exists s, file = KeyText s /\ Py.strip s = "").
Proof.
  split.
  - intros api_key H. destruct file as [| |s]; try discriminate.
    cbn [load_api_key] in H.
    destruct (Py.strip s) as [|c t] eqn:E; [discriminate|].
    cbn in H. injection H as <-. split; [|split].
    + exists s. split; [reflexivity | symmetry; exact E].
    + discriminate.
    + rewrite <- E. apply strip_idem.
  - destruct file as [| |s]; cbn [load_api_key].
    + split; auto.
    + split; auto.
    + destruct (Py.strip s) as [|c t] eqn:E; cbn.
      * split; [intros _; right; right; eauto | reflexivity].
      * split; [discriminate|].
        intros [H | [H | (s' & [= <-] & H)]]; try discriminate. congruence.
Qed.

Lemma load_api_key_stripped_nonempty_witness :
  load_api_key (KeyText "  abc123
") = Some "abc123" /\ Py.strip "abc123" = "abc123".
Proof.
  split; [reflexivity|].
  exact (proj2 (proj2 (proj1 (load_api_key_stripped_nonempty
                                (KeyText "  abc123
")) "abc123" eq_refl))).
Defined.

(** ** normalize_game_domain *)

Lemma canonical_slugs_lower (c : string) : c ∈ canonical_slugs -> Py.lower c = c.
Proof.
  unfold canonical_slugs, mappings. simpl. intros H.
  repeat (apply elem_of_cons in H as [-> | H]; [reflexivity|]).
  apply elem_of_nil in H. destruct H.
Qed.

Lemma normalize_not_string (v : json) :
  (forall s, v <> JStr s) -> normalize_game_domain v = Raise AttributeError.
Proof. intros H. destruct v; try reflexivity. destruct (H s). reflexivity. Qed.

(** X2.  The domain that [normalize_game_domain] returns for a string is
    in lower case, and it only depends on the input up to case: the
    lower-cased input gives the same domain.  A value that is not a
    string has no [lower] method: the call raises [AttributeError]. *)
Theorem normalize_game_domain_ignores_case :
  (forall s : string, exists d : string,
      normalize_game_domain (JStr s) = Ok d /\
      Py.lower d = d /\
      normalize_game_domain (JStr (Py.lower s)) = Ok d) /\
  (forall v : json,
      (forall s, v <> JStr s) -> normalize_game_domain v = Raise AttributeError).
Proof.
  split.
  - intros s. unfold normalize_game_domain. cbn [py_lower rbind].
    rewrite lower_idem.
    destruct (lookup_mappings (Py.lower s) mappings) as [c|] eqn:E.
    + exists c. split; [reflexivity|]. split; [|reflexivity].
      apply canonical_slugs_lower. eapply lookup_mappings_canonical. exact E.
    + exists (Py.lower s). split; [reflexivity|]. split; [|reflexivity].
      apply lower_idem.
  - apply normalize_not_string.
Qed.

Lemma normalize_game_domain_ignores_case_witness :
  normalize_game_domain (JInt 4) = Raise AttributeError.
Proof.
  apply (proj2 normalize_game_domain_ignores_case). discriminate.
Defined.

(** ** get_nexus_download_url *)

Lemma preferred_link_from_data (data : list json) (why : pick) (u : json) :
  preferred_link data = Ok (Some (why, u)) ->
  exists link, link ∈ data /\ dict_has link "URI" = true /\ dict_item link "URI" = u.
Proof.
  induction data as [|link rest IH]; [discriminate|].
  cbn [preferred_link].
  assert (Hrest : preferred_link rest = Ok (Some (why, u)) ->
            exists l, l ∈ link :: rest /\ dict_has l "URI" = true
                      /\ dict_item l "URI" = u).
  { intros H. destruct (IH H) as (l & Hin & Hl). exists l.
    split; [right; exact Hin | exact Hl]. }
  destruct (dict_has link "URI") eqn:Eu; cbn [andb negb]; [|exact Hrest].
  destruct (dict_has link "name"); cbn [negb]; [|exact Hrest].
  destruct (py_in _ _) as [[]|e]; cbn [rbind]; try discriminate.
  - intros [= <- <-]. exists link. split; [left | auto].
  - destruct (_ || _); [|exact Hrest].
    intros [= <- <-]. exists link. split; [left | auto].
Qed.

Lemma first_valid_link_from_data (data : list json) (u : json) :
  first_valid_link data = Some u ->
  exists link, link ∈ data /\ dict_has link "URI" = true /\ dict_item link "URI" = u.
Proof.
  induction data as [|link rest IH]; [discriminate|].
  cbn [first_valid_link]. destruct (dict_has link "URI") eqn:Eu.
  - intros [= <-]. exists link. split; [left | auto].
  - intros H. destruct (IH H) as (l & Hin & Hl). exists l.
    split; [right; exact Hin | exact Hl].
Qed.

(** X3.  A link that [get_nexus_download_url] returns always comes from
    the reply: the reply is a success with a JSON content type whose body
    is a list, and the link is the "URI" of one of the dicts of that
    list. *)
Theorem returned_link_comes_from_reply
    (reply : api_reply) (game_id : json) (o : link_outcome) (u : json) :
  get_nexus_download_url reply game_id = Ok o ->
  returned o = Some u ->
  exists (r : response) (data : list json) (link : json),
    reply = ApiResponse r /\
    json_success r /\
    resp_json r = Some (JArr data) /\
    link ∈ data /\ dict_has link "URI" = true /\ dict_item link "URI" = u.
Proof.
  unfold get_nexus_download_url.
  destruct (normalize_game_domain game_id) as [d|e]; [|discriminate].
  cbn [rbind]. intros [= <-] Hu.
  destruct reply as [|r]; [discriminate|]. cbn [request_link] in Hu.
  destruct (resp_ok r) eqn:Eok; cbn [negb] in Hu;
    [|rewrite api_error_no_link in Hu; discriminate].
  destruct (Py.str_in _ _) eqn:Ect; cbn [negb] in Hu; [|discriminate].
  destruct (resp_json r) as [body|] eqn:Eb; [|discriminate].
  destruct body as [| | | | |data|]; try discriminate.
  assert (exists link, link ∈ data /\ dict_has link "URI" = true
                       /\ dict_item link "URI" = u) as (link & Hl).
  { destruct data as [|l0 data]; [discriminate|]. cbn [select_link] in Hu.
    destruct (preferred_link (l0 :: data)) as [[[why u']|]|e] eqn:Ep;
      try discriminate.
    - injection Hu as <-. eapply preferred_link_from_data, Ep.
    - destruct (first_valid_link (l0 :: data)) as [u'|] eqn:Ef; [|discriminate].
      destruct (truthy u'); [|discriminate]. injection Hu as <-.
      apply first_valid_link_from_data, Ef. }
  exists r, data, link. split; [reflexivity|]. split; [split; assumption|].
  split; [exact Eb | exact Hl].
Qed.

Lemma returned_link_comes_from_reply_witness :
  exists (r : response) (data : list json) (link : json),
    json_reply (JArr [JNull; link_json mirror]) = ApiResponse r /\
    json_success r /\
    resp_json r = Some (JArr data) /\
    link ∈ data /\ dict_has link "URI" = true /\
    dict_item link "URI" = JStr "https://filedelivery.nexusmods.com/y".
Proof.
  apply (returned_link_comes_from_reply
           (json_reply (JArr [JNull; link_json mirror])) (JStr "Fallout4")
           (Found ByHost (JStr "https://filedelivery.nexusmods.com/y"))).
  - vm_compute. reflexivity.
  - reflexivity.
Defined.

Lemma first_valid_link_candidates (c : CandidateLink) (cs : list CandidateLink) :
  first_valid_link (link_json <$> (c :: cs)) = Some (JStr (uri c)).
Proof.
  cbn [fmap list_fmap first_valid_link].
  rewrite link_json_has_uri, link_json_uri. reflexivity.
Qed.

(** X4.  When no candidate is preferred, only the first candidate is
    looked at: its URI is returned when it is not empty, and no link at
    all when it is empty, whatever the candidates after it hold. *)
Theorem fallback_looks_at_first_candidate_only
    (c : CandidateLink) (cs : list CandidateLink) :
  List.find preferred (c :: cs) = None ->
  resolve (c :: cs)
  = Ok (if Py.str_truthy (uri c) then Some (JStr (uri c)) else None).
Proof.
  intros H. unfold resolve. rewrite get_nexus_download_url_str.
  unfold request_link, json_reply. cbn [resp_ok content_type resp_json negb].
  replace (Py.str_in _ _) with true by reflexivity.
  cbn [negb fmap list_fmap select_link].
  change (link_json c :: (link_json <$> cs)) with (link_json <$> (c :: cs)).
  rewrite preferred_link_find, H, first_valid_link_candidates.
  cbn [fmap option_fmap option_map truthy].
  destruct (Py.str_truthy (uri c)); reflexivity.
Qed.

Lemma fallback_looks_at_first_candidate_only_witness :
  resolve [ {| uri := ""; name := "Empty"; short_name := None |}; other ] = Ok None.
Proof.
  apply (fallback_looks_at_first_candidate_only
           {| uri := ""; name := "Empty"; short_name := None |} [other]).
  reflexivity.
Defined.

Lemma preferred_link_skip (pre : list json) (bad : json) (post : list json) :
  skipped bad = true ->
  preferred_link (pre ++ bad :: post) = preferred_link (pre ++ post).
Proof.
  intros Hb. induction pre as [|l pre IH]; cbn [app preferred_link].
  - unfold skipped in Hb. rewrite Hb. reflexivity.
  - rewrite IH. reflexivity.
Qed.

Lemma first_valid_link_skip (pre : list json) (bad : json) (post : list json) :
  dict_has bad "URI" = false ->
  first_valid_link (pre ++ bad :: post) = first_valid_link (pre ++ post).
Proof.
  intros Hb. induction pre as [|l pre IH]; cbn [app first_valid_link].
  - rewrite Hb. reflexivity.
  - rewrite IH. reflexivity.
Qed.

(** X5.  An entry of the reply that is not a dict, or has no "URI", is
    passed over: the link returned is the one the same reply would give
    without that entry. *)
Theorem entry_without_uri_is_ignored
    (pre : list json) (bad : json) (post : list json) (g : string) :
  dict_has bad "URI" = false ->
  returned <$$> get_nexus_download_url (json_reply (JArr (pre ++ bad :: post))) (JStr g)
  = returned <$$> get_nexus_download_url (json_reply (JArr (pre ++ post))) (JStr g).
Proof.
  intros Hb. rewrite !get_nexus_download_url_str. cbn [rmap]. f_equal.
  unfold request_link, json_reply. cbn [resp_ok content_type resp_json negb].
  replace (Py.str_in _ _) with true by reflexivity. cbn [negb].
  assert (Hs : skipped bad = true) by (unfold skipped; rewrite Hb; reflexivity).
  assert (Hsel : forall data, data <> [] ->
            select_link (JArr data) =
            match preferred_link data with
            | Raise e => InternalError e
            | Ok (Some (why, uri)) => Found why uri
            | Ok None =>
                match first_valid_link data with
                | Some uri => if truthy uri then Found Fallback uri else NoUsableLink
                | None => NoUsableLink
                end
            end).
  { intros [|x data] H; [congruence | reflexivity]. }
  rewrite (Hsel (pre ++ bad :: post)%list) by (destruct pre; discriminate).
  rewrite preferred_link_skip, first_valid_link_skip by assumption.
  destruct (pre ++ post)%list as [|x data] eqn:E; [reflexivity|].
  rewrite <- E, Hsel by (rewrite E; discriminate).
  reflexivity.
Qed.

Lemma entry_without_uri_is_ignored_witness :
  returned <$$> get_nexus_download_url
                  (json_reply (JArr [JStr "noise"; link_json other])) (JStr "skyrim")
  = Ok (Some (JStr "https://cdn.example/x")).
Proof.
  etransitivity.
  - exact (entry_without_uri_is_ignored [] (JStr "noise") [link_json other]
             "skyrim" eq_refl).
  - vm_compute. reflexivity.
Defined.

(** X6.  The first entry that has both "URI" and "name" decides when its
    URI is None, a bool or a number: the [in] test raises, the handler
    of the function catches it, and no link is returned even if a later
    entry is a perfect candidate. *)
Theorem uri_that_is_not_iterable_aborts
    (pre : list json) (link : json) (post : list json) (g : string) :
  Forall (fun l => skipped l = true) pre ->
  skipped link = false ->
  not_iterable (dict_item link "URI") = true ->
  get_nexus_download_url (json_reply (JArr (pre ++ link :: post))) (JStr g)
  = Ok (InternalError TypeError).
Proof.
  intros Hpre Hl Hu. rewrite get_nexus_download_url_str. f_equal.
  unfold request_link, json_reply. cbn [resp_ok content_type resp_json negb].
  replace (Py.str_in _ _) with true by reflexivity. cbn [negb].
  assert (Hp : preferred_link (pre ++ link :: post) = Raise TypeError).
  { induction Hpre as [|l pre Hs _ IH]; cbn [app preferred_link].
    - unfold skipped in Hl. rewrite Hl.
      destruct (dict_item link "URI"); try discriminate; reflexivity.
    - unfold skipped in Hs. rewrite Hs. exact IH. }
  destruct (pre ++ link :: post)%list as [|x data] eqn:E;
    [destruct pre; discriminate|].
  cbn [select_link]. rewrite Hp. reflexivity.
Qed.

Lemma uri_that_is_not_iterable_aborts_witness :
  get_nexus_download_url
    (json_reply (JArr [JNull;
                       JObj {[ "URI" := JInt 7; "name" := JStr "Odd" ]};
                       link_json mirror])) (JStr "skyrimse")
  = Ok (InternalError TypeError).
Proof.
  apply (uri_that_is_not_iterable_aborts
           [JNull] (JObj {[ "URI" := JInt 7; "name" := JStr "Odd" ]})
           [link_json mirror] "skyrimse").
  - repeat constructor.
  - vm_compute. reflexivity.
  - vm_compute. reflexivity.
Defined.

(** ** download_file *)

Lemma stream_to_file_prefix
    (chunks : list bytes) (ending : stream_end) (budget : option nat)
    (t : transfer) :
  exists done rest : list bytes,
    chunks = (done ++ rest)%list /\
    written (stream_to_file chunks ending budget t).2
      = (written t ++ concat done)%list /\
    pbar_n (stream_to_file chunks ending budget t).2
      = pbar_n t + Z.of_nat (length (concat done)) /\
    ((stream_to_file chunks ending budget t).1 = Ok tt ->
     rest = [] /\ ending = EndOfBody).
Proof.
  revert budget t. induction chunks as [|chunk more IH]; intros budget t.
  - exists [], []. cbn [stream_to_file concat app length].
    rewrite app_nil_r, Z.add_0_r.
    destruct ending; cbn [fst snd]; repeat split; try reflexivity; discriminate.
  - cbn [stream_to_file]. destruct chunk as [|b chunk].
    + destruct (IH budget t) as (done & rest & -> & Hw & Hn & Hok).
      exists ([] :: done), rest. cbn [concat app]. auto.
    + assert (Hgo : forall budget',
                exists done rest : list bytes,
                  (b :: chunk) :: more = (done ++ rest)%list /\
                  written (stream_to_file more ending budget'
                             {| written := written t ++ b :: chunk;
                                pbar_n := pbar_n t + Z.of_nat (length (b :: chunk)) |}).2
                    = (written t ++ concat done)%list /\
                  pbar_n (stream_to_file more ending budget'
                            {| written := written t ++ b :: chunk;
                               pbar_n := pbar_n t + Z.of_nat (length (b :: chunk)) |}).2
                    = pbar_n t + Z.of_nat (length (concat done)) /\
                  ((stream_to_file more ending budget'
                      {| written := written t ++ b :: chunk;
                         pbar_n := pbar_n t + Z.of_nat (length (b :: chunk)) |}).1
                   = Ok tt -> rest = [] /\ ending = EndOfBody)).
      { intros budget'.
        destruct (IH budget' {| written := written t ++ b :: chunk;
                                pbar_n := pbar_n t + Z.of_nat (length (b :: chunk)) |})
          as (done & rest & -> & Hw & Hn & Hok).
        exists ((b :: chunk) :: done), rest. split; [reflexivity|].
        cbn [written pbar_n] in Hw, Hn. split; [|split; [|exact Hok]].
        - rewrite Hw. cbn [concat]. rewrite <- app_assoc. reflexivity.
        - rewrite Hn. cbn [concat]. rewrite (length_app (b :: chunk)).
          rewrite Nat2Z.inj_add. lia. }
      destruct budget as [[|n]|].
      * exists [], ((b :: chunk) :: more). cbn [fst snd concat app length].
        rewrite app_nil_r, Z.add_0_r.
        repeat split; try reflexivity; discriminate.
      * apply (Hgo (Some n)).
      * apply (Hgo None).
Qed.

(** X7.  Whatever the budget of writes and the way the body ends, what
    the loop has written is the concatenation of the first chunks of the
    body, whole, and the progress bar has counted exactly the bytes
    written; the loop only finishes without an exception when all chunks
    were written and the body ended properly. *)
Theorem progress_counts_the_bytes_written
    (chunks : list bytes) (ending : stream_end) (budget : option nat)
    (t : transfer) :
  exists done rest : list bytes,
    chunks = (done ++ rest)%list /\
    written (stream_to_file chunks ending budget t).2
      = (written t ++ concat done)%list /\
    pbar_n (stream_to_file chunks ending budget t).2
      = pbar_n t + Z.of_nat (length (concat done)) /\
    ((stream_to_file chunks ending budget t).1 = Ok tt ->
     rest = [] /\ ending = EndOfBody).
Proof. apply stream_to_file_prefix. Qed.

Lemma progress_counts_the_bytes_written_witness :
  exists done rest : list bytes,
    [[Byte.x01; Byte.x02]; [Byte.x03; Byte.x04]] = (done ++ rest)%list /\
    [Byte.x01; Byte.x02] = concat done.
Proof.
  destruct (progress_counts_the_bytes_written
              [[Byte.x01; Byte.x02]; [Byte.x03; Byte.x04]] EndOfBody
              (Some 1%nat) no_transfer) as (done & rest & Hc & Hw & _).
  exists done, rest. split; [exact Hc | exact Hw].
Defined.

Lemma fetch_ok (net : http_get) (os : syscalls) (path : string) (d d' : disk) :
  fetch net os path d = (Ok tt, d') ->
  exists content_length chunks,
    net = GetResponse true content_length chunks EndOfBody /\
    d' = <[path := concat chunks]> d.
Proof.
  unfold fetch. destruct net as [|status_ok cl chunks ending]; [discriminate|].
  destruct status_ok; cbn [negb]; [|discriminate].
  destruct (total_size_bytes cl); [|discriminate].
  destruct (open_fails os); [discriminate|].
  destruct (stream_to_file_prefix chunks ending (good_writes os)
              {| written := []; pbar_n := 0 |})
    as (done & rest & Hc & Hw & _ & Hok).
  destruct (stream_to_file _ _ _ _) as [r t]. cbn [fst snd written] in *.
  intros [= -> <-]. destruct (Hok eq_refl) as [-> ->].
  rewrite app_nil_r in Hc. subst done. exists cl, chunks.
  split; [reflexivity|]. rewrite Hw. reflexivity.
Qed.

Lemma handle_not_true (e : exn) (os : syscalls) (path : string) (d d' : disk) :
  handle e os path d <> (Ok true, d').
Proof.
  unfold handle. destruct e; try discriminate.
  destruct (bool_decide _); [|discriminate].
  destruct (remove_fails os); discriminate.
Qed.

(** X8.  [download_file] returns [True] only when the request succeeded
    and the whole body was received: the target file then holds every
    chunk of it, in order.  It never reports success on a partial
    file. *)
Theorem success_means_the_whole_body_is_on_disk
    (net : http_get) (os : syscalls) (local_filename : json) (d d' : disk) :
  download_file net os local_filename d = (Ok true, d') ->
  exists (content_length : option string) (chunks : list bytes) (path : string),
    net = GetResponse true content_length chunks EndOfBody /\
    path_join DOWNLOAD_DIRECTORY local_filename = Ok path /\
    d' = <[path := concat chunks]> d /\
    d' !! path = Some (concat chunks).
Proof.
  unfold download_file. destruct (makedirs_fails os); [discriminate|].
  destruct (path_join DOWNLOAD_DIRECTORY local_filename) as [path|e];
    [|discriminate].
  destruct (fetch net os path d) as [[[]|e] d1] eqn:Ef.
  - intros [= <-]. destruct (fetch_ok _ _ _ _ _ Ef) as (cl & chunks & -> & ->).
    exists cl, chunks, path. repeat split. apply lookup_insert_eq.
  - intros H. destruct (handle_not_true _ _ _ _ _ H).
Qed.

Lemma success_means_the_whole_body_is_on_disk_witness :
  exists (content_length : option string) (chunks : list bytes) (path : string),
    two_chunks = GetResponse true content_length chunks EndOfBody /\
    path_join DOWNLOAD_DIRECTORY (JStr "a.zip") = Ok path /\
    {[ "downloads/a.zip" := [Byte.x01; Byte.x02; Byte.x03; Byte.x04] ]}
    = <[path := concat chunks]> (∅ : disk) /\
    ({[ "downloads/a.zip" := [Byte.x01; Byte.x02; Byte.x03; Byte.x04] ]} : disk)
      !! path = Some (concat chunks).
Proof.
  apply (success_means_the_whole_body_is_on_disk two_chunks all_good
           (JStr "a.zip") ∅).
  vm_compute. reflexivity.
Defined.






(** X10.  When the request itself fails (no connection, or an error
    status), nothing is downloaded, [False] is returned, and a file that
    was already at the target path, from an earlier download, is removed
    by the clean-up. *)
Theorem failed_request_removes_the_existing_file
    (net : http_get) (os : syscalls) (local_filename : string) (d : disk) :
  makedirs_fails os = false ->
  remove_fails os = false ->
  (net = GetFails \/
   exists content_length chunks ending,
     net = GetResponse false content_length chunks ending) ->
  exists path,
    path_join DOWNLOAD_DIRECTORY (JStr local_filename) = Ok path /\
    download_file net os (JStr local_filename) d = (Ok false, delete path d) /\
    (download_file net os (JStr local_filename) d).2 !! path = None.
Proof.
  intros Hmk Hrm Hnet.
  destruct (path_join_str DOWNLOAD_DIRECTORY local_filename) as [path Hp].
  exists path. split; [exact Hp|].
  assert (Hf : fetch net os path d = (Raise RequestException, d)).
  { destruct Hnet as [-> | (cl & chunks & ending & ->)]; reflexivity. }
  assert (H : download_file net os (JStr local_filename) d
              = (Ok false, delete path d)).
  { unfold download_file. rewrite Hmk, Hp, Hf. unfold handle. rewrite Hrm.
    destruct (d !! path) as [old|] eqn:E.
    - rewrite bool_decide_eq_true_2 by eauto. reflexivity.
    - rewrite bool_decide_eq_false_2 by (intros [? [=]]).
      rewrite delete_id by exact E. reflexivity. }
  split; [exact H|]. rewrite H. apply lookup_delete_eq.
Qed.

Lemma failed_request_removes_the_existing_file_witness :
  download_file (GetResponse false None [] EndOfBody) all_good (JStr "mod.zip")
    {[ "downloads/mod.zip" := [Byte.x01; Byte.x02] ]}
  = (Ok false, ∅).
Proof.
  destruct (failed_request_removes_the_existing_file
              (GetResponse false None [] EndOfBody) all_good "mod.zip"
              {[ "downloads/mod.zip" := [Byte.x01; Byte.x02] ]}
              eq_refl eq_refl
              (or_intror (ex_intro _ None (ex_intro _ [] (ex_intro _ EndOfBody eq_refl)))))
    as (path & Hp & H & _).
  injection Hp as <-. rewrite H. vm_compute. reflexivity.
Defined.

(** ** parse_wabbajack_json *)

Lemma truthy_opt_nonempty (v : option json) :
  truthy_opt v = true -> negb (empty_value (default JNull v)) = true.
Proof.
  destruct v as [x|]; [|discriminate]. cbn [truthy_opt default from_option id].
  rewrite empty_value_truthy, negb_involutive. auto.
Qed.

(** What one turn of the loop appends passed the validation, whatever
    the entry looks like; and the filter can only turn an appended dict
    into nothing. *)
Lemma extract_archive_some (fl : option string) (archive : json) (r : downloadable) :
  extract_archive fl archive = Ok (Some r) -> complete r = true.
Proof.
  unfold extract_archive.
  destruct (py_get archive "State") as [so|]; cbn [rbind]; [|discriminate].
  destruct (py_get (default (JObj ∅) so) "$type") as [ty|]; cbn [rbind];
    [|discriminate].
  destruct (py_in _ _) as [[]|]; cbn [rbind]; try discriminate.
  destruct (py_get (default (JObj ∅) so) "ModID") as [m|]; cbn [rbind];
    [|discriminate].
  destruct (py_get (default (JObj ∅) so) "FileID") as [f|]; cbn [rbind];
    [|discriminate].
  destruct (py_get (default (JObj ∅) so) "GameName") as [g|]; cbn [rbind];
    [|discriminate].
  destruct (py_get archive "Name") as [n|]; cbn [rbind]; [|discriminate].
  destruct (truthy_opt m) eqn:Em; cbn [andb negb]; [|discriminate].
  destruct (truthy_opt f) eqn:Ef; cbn [andb negb]; [|discriminate].
  destruct (truthy_opt g) eqn:Eg; cbn [andb negb]; [|discriminate].
  destruct (truthy_opt n) eqn:En; cbn [andb negb]; [|discriminate].
  destruct (passes_filter _ _ _) as [[]|]; cbn [rbind]; try discriminate.
  intros [= <-]. unfold complete. cbn [game_domain mod_id file_id filename].
  rewrite !truthy_opt_nonempty by assumption. reflexivity.
Qed.

Lemma extract_archive_unfiltered (fl : option string) (archive : json)
    (o : option downloadable) :
  extract_archive fl archive = Ok o ->
  exists o', extract_archive None archive = Ok o' /\ (o = None \/ o = o').
Proof.
  unfold extract_archive.
  destruct (py_get archive "State") as [so|]; cbn [rbind]; [|discriminate].
  destruct (py_get (default (JObj ∅) so) "$type") as [ty|]; cbn [rbind];
    [|discriminate].
  destruct (py_in _ _) as [[]|]; cbn [rbind]; try discriminate; [|eauto].
  destruct (py_get (default (JObj ∅) so) "ModID") as [m|]; cbn [rbind];
    [|discriminate].
  destruct (py_get (default (JObj ∅) so) "FileID") as [f|]; cbn [rbind];
    [|discriminate].
  destruct (py_get (default (JObj ∅) so) "GameName") as [g|]; cbn [rbind];
    [|discriminate].
  destruct (py_get archive "Name") as [n|]; cbn [rbind]; [|discriminate].
  destruct (negb _); [eauto|].
  cbn [passes_filter rbind].
  destruct (passes_filter fl _ _) as [[]|]; cbn [rbind]; try discriminate;
    intros [= <-]; eauto.
Qed.

Lemma extract_archives_complete (fl : option string) (archives : list json)
    (out : list downloadable) :
  extract_archives fl archives = Ok out ->
  Forall (fun r => complete r = true) out /\ (length out <= length archives)%nat.
Proof.
  revert out. induction archives as [|a rest IH]; intros out.
  - intros [= <-]. split; [constructor | reflexivity].
  - cbn [extract_archives].
    destruct (extract_archive fl a) as [o|] eqn:Ea; cbn [rbind]; [|discriminate].
    destruct (extract_archives fl rest) as [files|]; cbn [rbind]; [|discriminate].
    destruct (IH files eq_refl) as [Hc Hl]. intros [= <-].
    destruct o as [item|]; cbn [length].
    + split; [|lia]. constructor; [|exact Hc].
      eapply extract_archive_some, Ea.
    + split; [exact Hc | lia].
Qed.

(** X11.  Every request that [parse_wabbajack_json] emits has its four
    fields non-empty, whatever JSON the file holds and whatever the
    filter; and a manifest never yields more requests than it has
    entries. *)
Theorem extracted_requests_are_complete
    (file : file_read) (filter_string : option string) (out : list downloadable) :
  parse_wabbajack_json file filter_string = Ok out ->
  Forall (fun r => complete r = true) out /\
  (forall (others : gmap string json) (archives : list json),
      file = ReadJson (manifest_of others archives) ->
      (length out <= length archives)%nat).
Proof.
  intros H. split.
  - destruct file as [| | |data]; try (injection H as <-; constructor).
    cbn [parse_wabbajack_json] in H.
    destruct (py_get data "Archives") as [[archives|]|]; cbn [rbind] in H;
      try discriminate; [|injection H as <-; constructor].
    destruct (py_iter archives) as [entries|] eqn:Ei.
    + destruct archives; cbn [rbind] in H;
        try (injection H as <-; constructor);
        try discriminate;
        apply (extract_archives_complete _ _ _ H).
    + destruct archives; cbn [rbind] in H; try discriminate.
      injection H as <-. constructor.
  - intros others archives ->. rewrite parse_manifest_of in H.
    apply (extract_archives_complete _ _ _ H).
Qed.

Lemma extracted_requests_are_complete_witness :
  Forall (fun r => complete r = true) [skyui_request; skyui_request].
Proof.
  apply (extracted_requests_are_complete
           (ReadJson (manifest_of ∅ sample_archives)) (Some "sky")
           [skyui_request; skyui_request]).
  vm_compute. reflexivity.
Defined.

Lemma extract_archives_unfiltered (fl : option string) (archives : list json)
    (out : list downloadable) :
  extract_archives fl archives = Ok out ->
  exists all, extract_archives None archives = Ok all /\ out `sublist_of` all.
Proof.
  revert out. induction archives as [|a rest IH]; intros out.
  - intros [= <-]. exists []. split; [reflexivity | constructor].
  - cbn [extract_archives].
    destruct (extract_archive fl a) as [o|] eqn:Ea; cbn [rbind]; [|discriminate].
    destruct (extract_archives fl rest) as [files|]; cbn [rbind]; [|discriminate].
    intros [= <-].
    destruct (extract_archive_unfiltered _ _ _ Ea) as (o' & -> & Ho).
    destruct (IH files eq_refl) as (all & -> & Hsub). cbn [rbind].
    eexists. split; [reflexivity|].
    destruct Ho as [-> | ->].
    + destruct o' as [item|]; [apply sublist_cons|]; exact Hsub.
    + destruct o' as [item|]; [apply sublist_skip|]; exact Hsub.
Qed.

(** X12.  A filter only removes: whenever the extraction with a filter
    returns, the extraction without a filter returns too, and the
    filtered requests are among the unfiltered ones, in the same order
    (a sublist). *)
Theorem filter_only_removes
    (file : file_read) (filter_string : option string) (out : list downloadable) :
  parse_wabbajack_json file filter_string = Ok out ->
  exists all : list downloadable,
    parse_wabbajack_json file None = Ok all /\ out `sublist_of` all.
Proof.
  destruct file as [| | |data]; cbn [parse_wabbajack_json];
    try (intros [= <-]; exists []; split; [reflexivity | constructor]).
  destruct (py_get data "Archives") as [[archives|]|]; cbn [rbind];
    try discriminate;
    [|intros [= <-]; exists []; split; [reflexivity | constructor]].
  destruct archives;
    try (intros [= <-]; exists []; split; [reflexivity | constructor]);
    cbn [py_iter rbind]; try discriminate;
    apply extract_archives_unfiltered.
Qed.

Lemma filter_only_removes_witness :
  exists all : list downloadable,
    parse_wabbajack_json (ReadJson (manifest_of ∅ sample_archives)) None = Ok all /\
    [skyui_request; skyui_request] `sublist_of` all.
Proof.
  apply (filter_only_removes (ReadJson (manifest_of ∅ sample_archives))
           (Some "SE.7z")).
  vm_compute. reflexivity.
Defined.

Lemma breaks_loop_raises (fl : option string) (archive : json) :
  breaks_loop archive = true -> extract_archive fl archive = Raise AttributeError.
Proof.
  unfold breaks_loop, extract_archive.
  destruct archive as [| | | | | |a]; try reflexivity. cbn [py_get rbind].
  destruct (a !! "State") as [[]|]; try discriminate; reflexivity.
Qed.

Lemma extract_archives_raises (fl : option string) (pre : list json) (bad : json)
    (post : list json) (out : list downloadable) (e : exn) :
  extract_archives fl pre = Ok out ->
  extract_archive fl bad = Raise e ->
  extract_archives fl (pre ++ bad :: post) = Raise e.
Proof.
  revert out. induction pre as [|a pre IH]; intros out; cbn [app extract_archives].
  - intros _ ->. reflexivity.
  - destruct (extract_archive fl a) as [o|]; cbn [rbind]; [|discriminate].
    destruct (extract_archives fl pre) as [files|] eqn:E; cbn [rbind];
      [|discriminate].
    intros _ Hb. rewrite (IH files eq_refl Hb). reflexivity.
Qed.

(** X13.  One entry that is not an object, or whose "State" is present
    but not an object (null, for instance), is fatal: if the entries
    before it are processed without error, the extraction raises
    [AttributeError] instead of returning, whatever follows; in manifest
    mode the script then ends on that exception, with status 1, before
    any prompt or download. *)
Theorem malformed_entry_aborts_the_extraction
    (others : gmap string json) (pre : list json) (bad : json) (post : list json)
    (filter_string : option string) (out : list downloadable) :
  parse_wabbajack_json (ReadJson (manifest_of others pre)) filter_string = Ok out ->
  breaks_loop bad = true ->
  parse_wabbajack_json (ReadJson (manifest_of others (pre ++ bad :: post)))
    filter_string = Raise AttributeError /\
  (forall (a : args) (env : environment),
      is_Some (load_api_key (key_file env)) ->
      manifest_mode_chosen a = true ->
      arg_filter a = filter_string ->
      manifest env = ReadJson (manifest_of others (pre ++ bad :: post)) ->
      main a env = (Uncaught AttributeError, initial env) /\
      exit_status (main a env).1 = Some 1).
Proof.
  intros Hpre Hbad. rewrite parse_manifest_of in Hpre.
  assert (H : parse_wabbajack_json
                (ReadJson (manifest_of others (pre ++ bad :: post))) filter_string
              = Raise AttributeError).
  { rewrite parse_manifest_of.
    eapply extract_archives_raises; [exact Hpre|].
    apply breaks_loop_raises, Hbad. }
  split; [exact H|].
  intros a env [k Hk] Hm Hf He.
  assert (Hmain : main a env = (Uncaught AttributeError, initial env)).
  { unfold main. rewrite Hk, Hm, He, Hf, H. reflexivity. }
  split; [exact Hmain|]. rewrite Hmain. reflexivity.
Qed.

Lemma malformed_entry_aborts_the_extraction_witness :
  parse_wabbajack_json
    (ReadJson (manifest_of ∅ [skyui; JObj {[ "State" := JNull ]}; skyui])) None
  = Raise AttributeError.
Proof.
  assert (Hpre : parse_wabbajack_json (ReadJson (manifest_of ∅ [skyui])) None
                 = Ok [skyui_request]) by (vm_compute; reflexivity).
  assert (Hbad : breaks_loop (JObj {[ "State" := JNull ]}) = true)
    by (vm_compute; reflexivity).
  exact (proj1 (malformed_entry_aborts_the_extraction
                  ∅ [skyui] (JObj {[ "State" := JNull ]}) [skyui] None
                  [skyui_request] Hpre Hbad)).
Defined.

(** X14.  A manifest file that is missing, unreadable or not JSON, or an
    object whose "Archives" is absent, null or empty, gives the empty
    list and no exception; in manifest mode the script then leaves
    through [exit(0)] without a prompt, an attempt or a change on
    disk. *)
Theorem nothing_to_read_exits_cleanly
    (file : file_read) (filter_string : option string) :
  nothing_to_read file ->
  parse_wabbajack_json file filter_string = Ok [] /\
  (forall (a : args) (env : environment),
      is_Some (load_api_key (key_file env)) ->
      manifest_mode_chosen a = true ->
      arg_filter a = filter_string ->
      manifest env = file ->
      main a env = (SystemExit (ExitCode 0), initial env)).
Proof.
  intros Hn.
  assert (H : parse_wabbajack_json file filter_string = Ok []).
  { destruct Hn as [-> | [-> | [-> | (m & -> & Hm)]]]; try reflexivity.
    cbn [parse_wabbajack_json py_get rbind].
    destruct Hm as [-> | [-> | ->]]; reflexivity. }
  split; [exact H|].
  intros a env [k Hk] Hm Hf He.
  unfold main. rewrite Hk, Hm, He, Hf, H. reflexivity.
Qed.

Lemma nothing_to_read_exits_cleanly_witness :
  main manifest_args
    {| key_file := KeyText "secret"; manifest := ReadJson (JObj ∅);
       outside := offline; stdin := ["1"]; disk0 := ∅ |}
  = (SystemExit (ExitCode 0), {| files := ∅; attempts := 0; log := [] |}).
Proof.
  apply (proj2 (nothing_to_read_exits_cleanly (ReadJson (JObj ∅)) None
                  ltac:(right; right; right; exists ∅;
                        split; [reflexivity | left; reflexivity]))
           manifest_args
           {| key_file := KeyText "secret"; manifest := ReadJson (JObj ∅);
              outside := offline; stdin := ["1"]; disk0 := ∅ |}).
  - eexists. reflexivity.
  - reflexivity.
  - reflexivity.
  - reflexivity.
Defined.

(** ** The __main__ block *)

(** On an item made of strings, with a directory that can be created and
    files that can be removed, an attempt never raises: it ends with one
    report on the item. *)
Lemma attempt_plain (w : world) (item : downloadable) (s : state) :
  plain_item item = true ->
  dependable_at w (attempts s) ->
  exists s',
    attempt w item s = (Ok tt, s') /\
    attempts s' = S (attempts s) /\
    omap reported (log s') = (omap reported (log s) ++ [item])%list.
Proof.
  unfold plain_item. intros Hp [Hmk Hrm]. unfold attempt.
  destruct (game_domain item) as [| | | |g| |]; try discriminate.
  destruct (filename item) as [| | | |n| |] eqn:En; try discriminate.
  rewrite get_nexus_download_url_str.
  destruct (truthy_opt _).
  - destruct (download_file_returns (get_at w (attempts s)) (os_at w (attempts s))
                n (files s) Hmk Hrm) as (b & d' & ->).
    eexists. split; [reflexivity|]. split; [reflexivity|].
    cbn [log]. rewrite omap_app. reflexivity.
  - eexists. split; [reflexivity|]. split; [reflexivity|].
    cbn [log]. rewrite omap_app. reflexivity.
Qed.

Lemma attempt_each_plain (w : world) (items : list downloadable) (s : state) :
  Forall (fun item => plain_item item = true) items ->
  (forall n, dependable_at w n) ->
  exists s',
    attempt_each w items s = (Ok tt, s') /\
    attempts s' = (attempts s + length items)%nat /\
    omap reported (log s') = (omap reported (log s) ++ items)%list.
Proof.
  intros Hp Hw. revert s. induction Hp as [|item rest Hi _ IH]; intros s.
  - exists s. split; [reflexivity|]. split; [cbn; lia|].
    rewrite app_nil_r. reflexivity.
  - destruct (attempt_plain w item s Hi (Hw _)) as (s1 & H1 & Hn1 & Hl1).
    destruct (IH s1) as (s2 & H2 & Hn2 & Hl2).
    exists s2. cbn [attempt_each]. rewrite H1. split; [exact H2|].
    split; [rewrite Hn2, Hn1; cbn [length]; lia|].
    rewrite Hl2, Hl1, <- app_assoc. reflexivity.
Qed.

Lemma reported_record_asked (s : state) :
  omap reported (log (record Asked s)) = omap reported (log s).
Proof.
  unfold record. cbn [log]. rewrite omap_app. cbn. apply app_nil_r.
Qed.

(** X15.  In a world where the download directory can always be created
    and files removed, the selection "all" on items made of strings
    attempts every listed item exactly once, in the listed order, each
    with its own report, whatever the API and the downloads do: a failed
    item does not stop the batch.  The loop then reads the next line. *)
Theorem all_attempts_every_item_once
    (w : world) (ds : list downloadable) (line : string) (rest : list string)
    (s : state) :
  selection_of line = "all" ->
  Forall (fun item => plain_item item = true) ds ->
  (forall n, dependable_at w n) ->
  exists s',
    selection_loop w ds (line :: rest) s = selection_loop w ds rest s' /\
    attempts s' = (attempts s + length ds)%nat /\
    omap reported (log s') = (omap reported (log s) ++ ds)%list /\
    prompts s' = S (prompts s).
Proof.
  intros Hall Hp Hw.
  destruct (attempt_each_plain w ds (record Asked s) Hp Hw) as (s' & H & Hn & Hl).
  exists s'. split; [|split; [exact Hn|split]].
  - cbn [selection_loop]. fold (selection_of line). rewrite Hall, H. reflexivity.
  - rewrite Hl, reported_record_asked. reflexivity.
  - replace s' with (attempt_each w ds (record Asked s)).2 by (rewrite H; reflexivity).
    rewrite prompts_attempt_each. apply prompts_record_asked.
Qed.

Lemma all_attempts_every_item_once_witness :
  exists s',
    selection_loop offline [skyui_request; skyui_request] ["ALL"; "q"]
      {| files := ∅; attempts := 0; log := [] |}
    = selection_loop offline [skyui_request; skyui_request] ["q"] s' /\
    attempts s' = 2%nat /\
    omap reported (log s') = [skyui_request; skyui_request].
Proof.
  destruct (all_attempts_every_item_once offline [skyui_request; skyui_request]
              "ALL" ["q"] {| files := ∅; attempts := 0; log := [] |}
              eq_refl ltac:(repeat constructor)
              ltac:(intros n; split; reflexivity))
    as (s' & H & Hn & Hl & _).
  exists s'. split; [exact H|]. split; [exact Hn | exact Hl].
Defined.

(** X16.  A line that reads as an integer selects by number.  When the
    number is that of a listed item, that item and no other is
    attempted: if the attempt returns, the loop ends there, leaving the
    rest of the input unread; if it raises, the loop goes back to the
    prompt.  When the number is out of range nothing is attempted and
    the loop prompts again. *)
Theorem number_selects_one_item
    (w : world) (ds : list downloadable) (line : string) (rest : list string)
    (s : state) (k : Z) :
  Py.int_of_str (selection_of line) = Some k ->
  (1 <= k <= Z.of_nat (length ds) ->
   exists item,
     ds !! Z.to_nat (k - 1) = Some item /\
     (forall s', attempt w item (record Asked s) = (Ok tt, s') ->
        selection_loop w ds (line :: rest) s = (EndOfScript, s') /\
        attempts s' = S (attempts s)) /\
     (forall e s', attempt w item (record Asked s) = (Raise e, s') ->
        selection_loop w ds (line :: rest) s = selection_loop w ds rest s')) /\
  (~ 1 <= k <= Z.of_nat (length ds) ->
   selection_loop w ds (line :: rest) s
   = selection_loop w ds rest (record Asked s)).
Proof.
  intros Hk.
  assert (Hq : String.eqb (selection_of line) "q" = false).
  { destruct (String.eqb_spec (selection_of line) "q") as [E|]; [|reflexivity].
    rewrite E in Hk. discriminate. }
  assert (Ha : String.eqb (selection_of line) "all" = false).
  { destruct (String.eqb_spec (selection_of line) "all") as [E|]; [|reflexivity].
    rewrite E in Hk. discriminate. }
  split.
  - intros Hr.
    destruct (lookup_lt_is_Some_2 ds (Z.to_nat (k - 1))) as [item Hi]; [lia|].
    exists item. split; [exact Hi|].
    assert (Hstep : selection_loop w ds (line :: rest) s =
                    match attempt_each w [item] (record Asked s) with
                    | (Ok _, s') => (EndOfScript, s')
                    | (Raise _, s') => selection_loop w ds rest s'
                    end).
    { cbn [selection_loop]. fold (selection_of line). rewrite Hq, Ha, Hk.
      replace (_ && _) with true; [rewrite Hi; reflexivity|].
      symmetry. apply andb_true_iff. split; [apply Z.leb_le | apply Z.ltb_lt]; lia. }
    split.
    + intros s' H. rewrite Hstep. cbn [attempt_each]. rewrite H.
      split; [reflexivity|].
      replace s' with (attempt w item (record Asked s)).2 by (rewrite H; reflexivity).
      rewrite attempts_attempt. reflexivity.
    + intros e s' H. rewrite Hstep. cbn [attempt_each]. rewrite H. reflexivity.
  - intros Hr. cbn [selection_loop]. fold (selection_of line).
    rewrite Hq, Ha, Hk.
    replace (_ && _) with false; [reflexivity|].
    symmetry. apply andb_false_iff.
    destruct (Z.leb_spec 0 (k - 1)); [right; apply Z.ltb_ge; lia | left; reflexivity].
Qed.

Lemma number_selects_one_item_witness :
  selection_loop offline [skyui_request; skyui_request] [" 3"; "q"]
    {| files := ∅; attempts := 0; log := [] |}
  = selection_loop offline [skyui_request; skyui_request] ["q"]
      (record Asked {| files := ∅; attempts := 0; log := [] |}).
Proof.
  apply (proj2 (number_selects_one_item offline [skyui_request; skyui_request]
                  " 3" ["q"] {| files := ∅; attempts := 0; log := [] |} 3
                  eq_refl)).
  cbn. lia.
Defined.

(** X17.  In manual mode, once the key is loaded and the two identifiers
    read as integers, the script attempts exactly the item typed in
    (each answer stripped) and runs to its end with status 0, whether
    the link was obtained and the download succeeded or not, as long as
    the download directory can be created and files removed. *)
Theorem manual_mode_ends_with_status_zero
    (a : args) (env : environment) (l1 l2 l3 l4 : string) (more : list string)
    (m f : Z) :
  is_Some (load_api_key (key_file env)) ->
  manifest_mode_chosen a = false ->
  stdin env = l1 :: l2 :: l3 :: l4 :: more ->
  Py.int_of_str (Py.strip l2) = Some m ->
  Py.int_of_str (Py.strip l3) = Some f ->
  dependable_at (outside env) 0 ->
  exists s',
    main a env = (EndOfScript, s') /\
    exit_status (main a env).1 = Some 0 /\
    attempts s' = 1%nat /\
    omap reported (log s')
    = [ {| game_domain := JStr (Py.strip l1); mod_id := JInt m;
           file_id := JInt f; filename := JStr (Py.strip l4) |} ].
Proof.
  intros [k Hk] Hm Hin Hm2 Hf3 Hw.
  destruct (attempt_plain (outside env)
              {| game_domain := JStr (Py.strip l1); mod_id := JInt m;
                 file_id := JInt f; filename := JStr (Py.strip l4) |}
              (initial env) eq_refl Hw) as (s' & H & Hn & Hl).
  assert (Hmain : main a env = (EndOfScript, s')).
  { unfold main, manual_mode. rewrite Hk, Hm, Hin, Hm2, Hf3.
    fold (initial env). rewrite H. reflexivity. }
  exists s'. split; [exact Hmain|]. split; [rewrite Hmain; reflexivity|].
  split; [exact Hn | exact Hl].
Qed.

Lemma manual_mode_ends_with_status_zero_witness :
  exit_status
    (main manual_args (sample_env [" SkyrimSE "; "12604"; "35407"; "SkyUI.7z"])).1
  = Some 0.
Proof.
  destruct (manual_mode_ends_with_status_zero manual_args
              (sample_env [" SkyrimSE "; "12604"; "35407"; "SkyUI.7z"])
              " SkyrimSE " "12604" "35407" "SkyUI.7z" [] 12604 35407
              ltac:(eexists; reflexivity) eq_refl eq_refl eq_refl eq_refl
              ltac:(split; reflexivity)) as (s' & _ & H & _).
  exact H.
Defined.






(** X19.  An item whose game name is not a string cannot be resolved:
    the normalization raises [AttributeError] before any request, so the
    attempt changes nothing on disk and reports nothing, and in the
    selection loop choosing the number of such an item only brings the
    prompt back. *)
Theorem item_without_string_game_name_is_never_downloaded
    (w : world) (ds : list downloadable) (item : downloadable)
    (line : string) (rest : list string) (s : state) (k : Z) :
  (forall g, game_domain item <> JStr g) ->
  Py.int_of_str (selection_of line) = Some k ->
  1 <= k <= Z.of_nat (length ds) ->
  ds !! Z.to_nat (k - 1) = Some item ->
  attempt w item s
  = (Raise AttributeError,
     {| files := files s; attempts := S (attempts s); log := log s |}) /\
  selection_loop w ds (line :: rest) s
  = selection_loop w ds rest
      {| files := files s; attempts := S (attempts s); log := log s ++ [Asked] |}.
Proof.
  intros Hg Hk Hr Hi.
  assert (Hatt : forall s0, attempt w item s0
            = (Raise AttributeError,
               {| files := files s0; attempts := S (attempts s0); log := log s0 |})).
  { intros s0. unfold attempt, get_nexus_download_url.
    rewrite (normalize_not_string _ Hg). reflexivity. }
  split; [apply Hatt|].
  assert (Hq : String.eqb (selection_of line) "q" = false).
  { destruct (String.eqb_spec (selection_of line) "q") as [E|]; [|reflexivity].
    rewrite E in Hk. discriminate. }
  assert (Ha : String.eqb (selection_of line) "all" = false).
  { destruct (String.eqb_spec (selection_of line) "all") as [E|]; [|reflexivity].
    rewrite E in Hk. discriminate. }
  cbn [selection_loop]. fold (selection_of line). rewrite Hq, Ha, Hk.
  replace (_ && _) with true
    by (symmetry; apply andb_true_iff; split;
        [apply Z.leb_le | apply Z.ltb_lt]; lia).
  rewrite Hi. cbn [attempt_each]. rewrite Hatt. reflexivity.
Qed.

Lemma item_without_string_game_name_is_never_downloaded_witness :
  selection_loop offline [numeric_game_item] ["1"]
    {| files := ∅; attempts := 0; log := [] |}
  = (Diverges, {| files := ∅; attempts := 1; log := [Asked] |}).
Proof.
  rewrite (proj2 (item_without_string_game_name_is_never_downloaded
                    offline [numeric_game_item] numeric_game_item "1" []
                    {| files := ∅; attempts := 0; log := [] |} 1
                    ltac:(discriminate) eq_refl ltac:(cbn; lia) eq_refl)).
  reflexivity.
Defined.

Lemma qualifying_names_plain (a : json) :
  qualifies a = true -> names_are_strings a = true ->
  plain_item (request_of a) = true.
Proof.
  unfold names_are_strings, plain_item, request_of.
  cbn [game_domain filename]. intros -> H. cbn [negb orb] in H.
  destruct (display_name a) as [[]|]; try discriminate.
  destruct (field a "GameName") as [[]|]; try discriminate.
  reflexivity.
Qed.

(** X20.  For a manifest of the contract's shape whose qualifying
    entries have string names, every request the extractor emits, with
    or without a filter, has a string game name and a string file name:
    these are the items on which an attempt cannot raise. *)
Theorem contract_manifest_gives_plain_items
    (others : gmap string json) (archives : list json)
    (filter_string : option string) :
  Forall (fun a => well_shaped a = true) archives ->
  Forall (fun a => names_are_strings a = true) archives ->
  exists out,
    parse_wabbajack_json (ReadJson (manifest_of others archives)) filter_string
    = Ok out /\
    Forall (fun item => plain_item item = true) out.
Proof.
  intros Hs Hn. rewrite parse_manifest_of.
  assert (Hplain : forall keep : json -> bool,
            Forall (fun item => plain_item item = true)
              (request_of <$> List.filter (fun a => qualifies a && keep a) archives)).
  { intros keep. apply Forall_fmap, Forall_forall. intros a Ha.
    apply list_elem_of_In, filter_In in Ha as [Hin Hq].
    apply andb_true_iff in Hq as [Hq _].
    apply qualifying_names_plain; [exact Hq|].
    apply list_elem_of_In in Hin.
    exact (proj1 (Forall_forall _ _) Hn a Hin). }
  destruct filter_string as [f|].
  - rewrite (extract_archives_filter f archives Hs Hn). eauto.
  - cbn [filter_lower_of]. rewrite (extract_archives_no_filter archives Hs).
    exists (request_of <$> List.filter qualifies archives). split; [reflexivity|].
    specialize (Hplain (fun _ => true)).
    replace (List.filter qualifies archives)
      with (List.filter (fun a => qualifies a && true) archives); [exact Hplain|].
    apply List.filter_ext. intros a. apply andb_true_r.
Qed.

Lemma contract_manifest_gives_plain_items_witness :
  exists out,
    parse_wabbajack_json (ReadJson (manifest_of ∅ sample_archives)) (Some "sky")
    = Ok out /\
    Forall (fun item => plain_item item = true) out.
Proof.
  exact (contract_manifest_gives_plain_items ∅ sample_archives (Some "sky")
           sample_archives_well_shaped sample_archives_names).
Defined.
